(** * SliceViewPanel (neuroglancer/sliceview/panel.ts)

    A shallow embedding of the slice-view panel: the per-frame [draw], the
    pick read-back [updateMouseState], the drag handler installed by
    [onMousedown], [zoomByMouse], and the two handlers the panel gives to its
    VisibleRenderLayerTracker; and of [beginSlice] of the
    SupervoxelRenderLayer that follows it in the same source file.

    JavaScript numbers are kept abstract: the file is parametric in a type
    [num] with the arithmetic the panel uses ([JSNumber]), and no algebraic
    law is assumed of it, so every parametric theorem holds of whatever
    arithmetic the numbers really have.  Concrete inputs are evaluated over
    the rationals ([Q_JSNumber]).  Typed arrays are modelled as holding the
    numbers written to them.

    Calls into collaborators that are not part of panel.ts are recorded, in
    order, in the panel state's [calls]; where a collaborator's result feeds
    back into the panel's own computation it is an operation of the class
    [Collaborators]. *)

From Stdlib Require Import QArith Qminmax.
From stdpp Require Import base decidable option list gmap strings.

Set Implicit Arguments.

(** ** JavaScript numbers *)

Class JSNumber (num : Type) : Type := {
  num_add : num -> num -> num;
  num_sub : num -> num -> num;
  num_mul : num -> num -> num;
  num_div : num -> num -> num;
  (** a numeric literal of the source text *)
  num_lit : Q -> num;
  Math_PI : num;
  Math_min : num -> num -> num;
  (** [a === b] *)
  strict_eq : num -> num -> bool;
  (** ToBoolean, as used by [w || 1.0] *)
  truthy : num -> bool;
}.

Declare Scope num_scope.
Delimit Scope num_scope with num.
Infix "+" := num_add : num_scope.
Infix "-" := num_sub : num_scope.
Infix "*" := num_mul : num_scope.
Infix "/" := num_div : num_scope.

(** The rationals as numbers.  [Math_PI] is the exact value of the double
    [Math.PI], 884279719003555 / 2^48. *)
#[export] Instance Q_JSNumber : JSNumber Q := {
  num_add := Qplus;
  num_sub := Qminus;
  num_mul := Qmult;
  num_div := Qdiv;
  num_lit := fun q => q;
  Math_PI := 884279719003555 # 281474976710656;
  Math_min := Qmin;
  strict_eq := Qeq_bool;
  truthy := fun q => negb (Qeq_bool q 0);
}.

(** ** gl-matrix (neuroglancer/util/geom re-exports it) *)

Section GlMatrix.
Context {num : Type} {JSN : JSNumber num}.

Record vec3 : Type := Vec3 { vx : num; vy : num; vz : num }.

(** A [Mat4] is a 16-element array in column-major order. *)
Definition Mat4 : Type := list num.

(** [m[i]] for an index inside the array. *)
Definition mat4_at (m : Mat4) (i : nat) : num := nth i m (num_lit 0).

Definition identityMat4 : Mat4 :=
  let o := num_lit 0 in let i := num_lit 1 in
  [i; o; o; o;  o; i; o; o;  o; o; i; o;  o; o; o; i].

(** [mat4.create()] returns a fresh identity matrix. *)
Definition mat4_create : Mat4 := identityMat4.

(** [vec3.set(out, x, y, z)] *)
Definition vec3_set (x y z : num) : vec3 := Vec3 x y z.

(** [vec3.scaleAndAdd(out, a, b, scale)]: [out = a + b * scale]. *)
Definition vec3_scaleAndAdd (a b : vec3) (scale : num) : vec3 :=
  Vec3 (vx a + vx b * scale)%num (vy a + vy b * scale)%num (vz a + vz b * scale)%num.

(** [vec3.transformMat4(out, a, m)]: [a] is transformed as the point
    [(x, y, z, 1)] and divided by the resulting [w] ([w = w || 1.0]). *)
Definition vec3_transformMat4 (a : vec3) (m : Mat4) : vec3 :=
  let x := vx a in let y := vy a in let z := vz a in
  let w := (mat4_at m 3 * x + mat4_at m 7 * y + mat4_at m 11 * z + mat4_at m 15)%num in
  let w := if truthy w then w else num_lit 1 in
  Vec3 ((mat4_at m 0 * x + mat4_at m 4 * y + mat4_at m 8 * z + mat4_at m 12) / w)%num
       ((mat4_at m 1 * x + mat4_at m 5 * y + mat4_at m 9 * z + mat4_at m 13) / w)%num
       ((mat4_at m 2 * x + mat4_at m 6 * y + mat4_at m 10 * z + mat4_at m 14) / w)%num.

End GlMatrix.

Arguments vec3 num : clear implicits.
Arguments Mat4 num : clear implicits.

(** ** Objects the panel reaches *)

(** A render layer object, named by its identity. *)
Definition SliceViewPanelRenderLayer : Type := nat.

(** [enum OffscreenTextures { COLOR, PICK, NUM_TEXTURES }] *)
Definition COLOR : nat := 0.
Definition PICK : nat := 1.
Definition NUM_TEXTURES : nat := 2.

(** [gl.WEBGL_draw_buffers.COLOR_ATTACHMENT0_WEBGL], as the index of the
    attachment point; texture [i] of an offscreen framebuffer is attached at
    point [i]. *)
Definition COLOR_ATTACHMENT0_WEBGL : nat := 0.

(** *** Signals (the [signals] package)

    A signal holds bindings of a listener function to a context object.
    [add] registers a binding unless the same listener and context are
    already bound; [remove] takes the binding of that listener and context
    out. *)
Inductive Listener : Type :=
| scheduleRedraw_method
| other_listener (f : nat).

Record SignalBinding : Type := { listener : Listener; context : nat }.

#[export] Instance Listener_eq_dec : EqDecision Listener.
Proof. solve_decision. Defined.

#[export] Instance SignalBinding_eq_dec : EqDecision SignalBinding.
Proof. solve_decision. Defined.

Abbreviation Signal := (list SignalBinding).

Definition signal_add (b : SignalBinding) (s : Signal) : Signal :=
  if bool_decide (b ∈ s) then s else b :: s.

Fixpoint signal_remove (b : SignalBinding) (s : Signal) : Signal :=
  match s with
  | [] => []
  | b' :: s' => if bool_decide (b = b') then s' else b' :: signal_remove b s'
  end.

(** The number of bindings of [b] in a signal. *)
Definition subscriptions (b : SignalBinding) (s : Signal) : nat :=
  length (filter (fun b' => b' = b) s).

(** What has been painted into a texture since it was last cleared. *)
Inductive Painter : Type :=
| Background
| LayerContent (layer : SliceViewPanelRenderLayer)
| AxesLines.

#[export] Instance Painter_eq_dec : EqDecision Painter.
Proof. solve_decision. Defined.

Record MouseEvent : Type := { target : nat; button : Z; shiftKey : bool }.

Section Objects.
Context {num : Type} {JSN : JSNumber num}.
Variables Orientation PickIDManager : Type.

Record NavigationState : Type := {
  valid : bool;
  spatialCoordinates : vec3 num;     (* position.spatialCoordinates *)
  orientation : Orientation;         (* what pose.rotateAbsolute acts on *)
  zoomFactor : num;                  (* zoomFactor.value *)
}.

Record MouseSelectionState : Type := {
  position : vec3 num;
  pickedRenderLayer : option SliceViewPanelRenderLayer;
  pickedValue : N;
}.

Record SliceView : Type := {
  hasValidViewport : bool;
  width : num;
  height : num;
  dataToDevice : Mat4 num;
  viewportToData : Mat4 num;
  pixelSize : num;
  viewportAxes : list (vec3 num);
  sliceView_navigationState : NavigationState;
}.

(** [interface SliceViewerState extends ViewerState] *)
Record SliceViewerState : Type := {
  showAxisLines : bool;
  showScaleBar : bool;
  viewer_navigationState : NavigationState;
  mouseState : MouseSelectionState;
}.

(** [interface SliceViewPanelRenderContext]; [ctx_pickIDs] is the panel's
    own manager, shared by every layer drawn in the frame. *)
Record SliceViewPanelRenderContext : Type := {
  ctx_dataToDevice : Mat4 num;
  ctx_pickIDs : PickIDManager;
}.

(** The offscreen framebuffer: the size its textures were allocated for
    (none before the first bind) and, per texture, what was painted into it
    since the last clear. *)
Record OffscreenFramebuffer : Type := {
  fb_size : option (num * num);
  dataTextures : list (list Painter);
}.

(** The part of the WebGL state the panel changes. *)
Record GLState : Type := {
  offscreenBound : bool;
  drawBuffers : list nat;
}.

(** [scaleBarWidget.dimensions] *)
Record ScaleBarDimensions : Type := {
  targetLengthInPixels : num;
  nanometersPerPixel : num;
}.

(** Calls the panel makes on its collaborators. *)
Inductive Call : Type :=
| SliceView_updateRendering
| OffscreenFramebuffer_bind (w h : num)
| gl_disable_SCISSOR_TEST
| gl_clearColor (r g b a : num)
| gl_clear_COLOR_BUFFER_BIT
| SliceViewRenderHelper_draw (projection : Mat4 num) (colorFactor backgroundColor : list num)
    (x0 y0 x1 y1 : num)
| PickIDManager_clear
| RenderLayer_draw (layer : SliceViewPanelRenderLayer) (ctx_dataToDevice : Mat4 num)
| gl_drawBuffersWEBGL (buffers : list nat)
| AxesLineHelper_draw (mat : Mat4 num)
| OffscreenFramebuffer_unbind
| setGLViewport
| OffscreenCopyHelper_draw (texture : nat)
| ScaleBarWidget_update
| scheduleRedraw
| NavigationState_zoomBy (factor : num)
| Pose_rotateAbsolute (axis : vec3 num) (angle : num) (fixedPoint : vec3 num)
| sliceView_position_changed_dispatch   (* sliceView.navigationState.position.changed *)
| viewer_position_changed_dispatch      (* viewer.navigationState.position.changed *)
| RenderedDataPanel_onMousedown (e : MouseEvent)
| startRelativeMouseDrag (e : MouseEvent).

Record SliceViewPanel : Type := MkPanel {
  this : nat;                        (* the panel object, by identity *)
  element : nat;                     (* its DOM element, by identity *)
  sliceView : SliceView;
  viewer : SliceViewerState;
  mouseX : num;
  mouseY : num;
  pickIDs : PickIDManager;
  visibleLayers : list SliceViewPanelRenderLayer;   (* visibleLayerTracker.getVisibleLayers() *)
  redrawNeeded : gmap SliceViewPanelRenderLayer Signal; (* each layer's redrawNeeded *)
  offscreenFramebuffer : OffscreenFramebuffer;
  gl : GLState;
  scaleBarWidget : ScaleBarDimensions;
  calls : list Call;
}.

End Objects.

Arguments NavigationState num Orientation : clear implicits.
Arguments MouseSelectionState num : clear implicits.
Arguments SliceView num Orientation : clear implicits.
Arguments SliceViewerState num Orientation : clear implicits.
Arguments SliceViewPanelRenderContext num PickIDManager : clear implicits.
Arguments OffscreenFramebuffer num : clear implicits.
Arguments ScaleBarDimensions num : clear implicits.
Arguments Call num : clear implicits.
Arguments SliceViewPanel num Orientation PickIDManager : clear implicits.

(** ** Collaborators

    Operations of modules that panel.ts imports and whose results the panel
    computes with.  They are left open: the theorems about the panel hold
    for every choice of them. *)
Class Collaborators (num : Type) : Type := {
  Orientation : Type;
  PickIDManager : Type;
  (** the navigation state: [navigationState.zoomBy(factor)] and
      [navigationState.pose.rotateAbsolute(axis, angle, fixedPoint)] *)
  navigationState_zoomBy :
    num -> NavigationState num Orientation -> NavigationState num Orientation;
  pose_rotateAbsolute :
    vec3 num -> num -> vec3 num ->
    NavigationState num Orientation -> NavigationState num Orientation;
  (** neuroglancer/object_picking: [pickIDs.clear()] and
      [pickIDs.setMouseState(mouseState, pickID)] *)
  pickIDs_clear : PickIDManager -> PickIDManager;
  pickIDs_setMouseState :
    PickIDManager -> MouseSelectionState num -> N -> MouseSelectionState num;
  (** a layer's [draw(renderContext)]: the manager of the context once the
      layer has registered its pick IDs *)
  renderLayer_draw :
    SliceViewPanelRenderLayer -> SliceViewPanelRenderContext num PickIDManager ->
    PickIDManager;
  (** neuroglancer/layer: [mouseState.updateUnconditionally()] *)
  mouseState_updateUnconditionally :
    MouseSelectionState num -> bool * MouseSelectionState num;
  (** the 32-bit value a texture with the given paint history holds at a
      pixel *)
  texture_readPixelAsUint32 : list Painter -> num -> num -> N;
}.

(** ** The panel *)

Section Panel.
Context {num : Type} {JSN : JSNumber num} {C : Collaborators num}.

Abbreviation NavState := (NavigationState num Orientation).
Abbreviation Panel := (SliceViewPanel num Orientation PickIDManager).

(** *** Field updates *)

Definition set_spatialCoordinates (v : vec3 num) (n : NavState) : NavState :=
  {| valid := valid n; spatialCoordinates := v;
     orientation := orientation n; zoomFactor := zoomFactor n |}.

Definition set_sliceView_navigationState (n : NavState) (sv : SliceView num Orientation)
  : SliceView num Orientation :=
  {| hasValidViewport := hasValidViewport sv; width := width sv; height := height sv;
     dataToDevice := dataToDevice sv; viewportToData := viewportToData sv;
     pixelSize := pixelSize sv; viewportAxes := viewportAxes sv;
     sliceView_navigationState := n |}.

Definition set_viewer_navigationState (n : NavState) (v : SliceViewerState num Orientation)
  : SliceViewerState num Orientation :=
  {| showAxisLines := showAxisLines v; showScaleBar := showScaleBar v;
     viewer_navigationState := n; mouseState := mouseState v |}.

Definition set_showAxisLines (b : bool) (v : SliceViewerState num Orientation)
  : SliceViewerState num Orientation :=
  {| showAxisLines := b; showScaleBar := showScaleBar v;
     viewer_navigationState := viewer_navigationState v; mouseState := mouseState v |}.

Definition set_mouseState (m : MouseSelectionState num) (v : SliceViewerState num Orientation)
  : SliceViewerState num Orientation :=
  {| showAxisLines := showAxisLines v; showScaleBar := showScaleBar v;
     viewer_navigationState := viewer_navigationState v; mouseState := m |}.

Definition set_sliceView (x : SliceView num Orientation) (p : Panel) : Panel :=
  let '(MkPanel t e _ v mx my pk vl rn fb g sb cs) := p in
  MkPanel t e x v mx my pk vl rn fb g sb cs.

Definition set_viewer (x : SliceViewerState num Orientation) (p : Panel) : Panel :=
  let '(MkPanel t e sv _ mx my pk vl rn fb g sb cs) := p in
  MkPanel t e sv x mx my pk vl rn fb g sb cs.

Definition set_pickIDs (x : PickIDManager) (p : Panel) : Panel :=
  let '(MkPanel t e sv v mx my _ vl rn fb g sb cs) := p in
  MkPanel t e sv v mx my x vl rn fb g sb cs.

Definition set_redrawNeeded (x : gmap SliceViewPanelRenderLayer Signal) (p : Panel) : Panel :=
  let '(MkPanel t e sv v mx my pk vl _ fb g sb cs) := p in
  MkPanel t e sv v mx my pk vl x fb g sb cs.

Definition set_offscreenFramebuffer (x : OffscreenFramebuffer num) (p : Panel) : Panel :=
  let '(MkPanel t e sv v mx my pk vl rn _ g sb cs) := p in
  MkPanel t e sv v mx my pk vl rn x g sb cs.

Definition set_gl (x : GLState) (p : Panel) : Panel :=
  let '(MkPanel t e sv v mx my pk vl rn fb _ sb cs) := p in
  MkPanel t e sv v mx my pk vl rn fb x sb cs.

Definition set_scaleBarWidget (x : ScaleBarDimensions num) (p : Panel) : Panel :=
  let '(MkPanel t e sv v mx my pk vl rn fb g _ cs) := p in
  MkPanel t e sv v mx my pk vl rn fb g x cs.

Definition set_visibleLayers (x : list SliceViewPanelRenderLayer) (p : Panel) : Panel :=
  let '(MkPanel t e sv v mx my pk _ rn fb g sb cs) := p in
  MkPanel t e sv v mx my pk x rn fb g sb cs.

Definition set_calls (x : list (Call num)) (p : Panel) : Panel :=
  let '(MkPanel t e sv v mx my pk vl rn fb g sb _) := p in
  MkPanel t e sv v mx my pk vl rn fb g sb x.

(** A call on a collaborator, appended to the record of calls. *)
Definition call (c : Call num) (p : Panel) : Panel := set_calls (calls p ++ [c]) p.

(** [for (let i = 0; i < n; ++i) body] *)
Definition for_range {S : Type} (n : nat) (body : nat -> S -> S) (s : S) : S :=
  fold_left (fun s i => body i s) (seq 0 n) s.

(** *** The offscreen framebuffer and the draw buffers *)

(** Modelled from the spec: [OffscreenFramebuffer.hasSize] (webgl/offscreen
    is not among the sources).  The target "has" a size when it is the size
    its textures were last allocated for. *)
Definition hasSize (fb : OffscreenFramebuffer num) (w h : num) : bool :=
  match fb_size fb with
  | Some (fw, fh) => strict_eq fw w && strict_eq fh h
  | None => false
  end.

(** Modelled from the spec: [OffscreenFramebuffer.bind(width, height)]
    (webgl/offscreen is not among the sources).  The target is reallocated
    when the requested size differs from its size and reused otherwise; once
    bound, all its attachments are the draw buffers. *)
Definition resized (fb : OffscreenFramebuffer num) (w h : num) : OffscreenFramebuffer num :=
  if hasSize fb w h then fb
  else {| fb_size := Some (w, h); dataTextures := replicate NUM_TEXTURES [] |}.

Definition offscreenFramebuffer_bind (w h : num) (p : Panel) : Panel :=
  call (OffscreenFramebuffer_bind w h)
    (set_gl {| offscreenBound := true; drawBuffers := seq 0 NUM_TEXTURES |}
       (set_offscreenFramebuffer (resized (offscreenFramebuffer p) w h) p)).

Definition offscreenFramebuffer_unbind (p : Panel) : Panel :=
  call OffscreenFramebuffer_unbind
    (set_gl {| offscreenBound := false; drawBuffers := drawBuffers (gl p) |} p).

(** The textures after every texture attached at a current draw buffer is
    changed by [f]; nothing changes while the target is not bound. *)
Definition on_drawBuffers (f : list Painter -> list Painter) (p : Panel) : Panel :=
  if offscreenBound (gl p) then
    let fb := offscreenFramebuffer p in
    set_offscreenFramebuffer
      {| fb_size := fb_size fb;
         dataTextures :=
           imap (fun i t => if bool_decide (i ∈ drawBuffers (gl p)) then f t else t)
                (dataTextures fb) |} p
  else p.

(** [gl.clear(gl.COLOR_BUFFER_BIT)] *)
Definition gl_clear (p : Panel) : Panel :=
  call gl_clear_COLOR_BUFFER_BIT (on_drawBuffers (fun _ => []) p).

(** A draw call painting [who] into the current draw buffers. *)
Definition paint (who : Painter) (p : Panel) : Panel :=
  on_drawBuffers (fun t => t ++ [who]) p.

(** [gl.WEBGL_draw_buffers.drawBuffersWEBGL(buffers)] *)
Definition drawBuffersWEBGL (buffers : list nat) (p : Panel) : Panel :=
  call (gl_drawBuffersWEBGL buffers)
    (set_gl {| offscreenBound := offscreenBound (gl p); drawBuffers := buffers |} p).

(** [offscreenFramebuffer.readPixelAsUint32(textureIndex, x, y)] *)
Definition readPixelAsUint32 (fb : OffscreenFramebuffer num) (textureIndex : nat)
    (x y : num) : N :=
  texture_readPixelAsUint32 (nth textureIndex (dataTextures fb) []) x y.

(** The paint history of texture [i] of the panel's offscreen framebuffer. *)
Definition textureAt (p : Panel) (i : nat) : list Painter :=
  nth i (dataTextures (offscreenFramebuffer p)) [].

(** The textures of the panel's offscreen framebuffer, by index. *)
Definition texOpt (p : Panel) (i : nat) : option (list Painter) :=
  dataTextures (offscreenFramebuffer p) !! i.

(** *** draw *)

(** One iteration of [for (let renderLayer of visibleLayers)
    renderLayer.draw(renderContext)]: the layer paints into the draw buffers
    and registers pick IDs with the manager of the context. *)
Definition drawLayer (ctx_d2d : Mat4 num) (p : Panel) (renderLayer : SliceViewPanelRenderLayer)
  : Panel :=
  let renderContext := {| ctx_dataToDevice := ctx_d2d; ctx_pickIDs := pickIDs p |} in
  set_pickIDs (renderLayer_draw renderLayer renderContext)
    (paint (LayerContent renderLayer) (call (RenderLayer_draw renderLayer ctx_d2d) p)).

(** The matrix handed to [axesLineHelper.draw] (lines 143-159). *)
Definition axesMatrix (sv : SliceView num Orientation) : Mat4 num :=
  let mat := dataToDevice sv in                        (* mat4.copy(mat, dataToDevice) *)
  let mat := for_range 3 (fun i m => <[12 + i := num_lit 0]> m) mat in
  let mat := for_range 4 (fun i m => <[2 + 4 * i := num_lit 0]> m) mat in
  let axisLength := (Math_min (width sv) (height sv) / num_lit 4 * num_lit 1.5)%num in
  let pixelSize := pixelSize sv in
  for_range 12 (fun i m => <[i := (mat4_at m i * (axisLength * pixelSize))%num]> m) mat.

(** The overlay pass of [draw] ([if (this.viewer.showAxisLines.value)]). *)
Definition drawAxisLines (p : Panel) : Panel :=
  if showAxisLines (viewer p) then
    let mat := axesMatrix (sliceView p) in
    let p := drawBuffersWEBGL [COLOR_ATTACHMENT0_WEBGL] p in
    paint AxesLines (call (AxesLineHelper_draw mat) p)
  else p.

(** Lines 113-129 of [draw]: the offscreen target is bound and cleared and
    the slice view's own rendering is painted as the background. *)
Definition drawBackground (p : Panel) : Panel :=
  let sliceView := sliceView p in
  let p := call SliceView_updateRendering p in
  let width := width sliceView in
  let height := height sliceView in
  let p := offscreenFramebuffer_bind width height p in
  let p := call gl_disable_SCISSOR_TEST p in
  let p := call (gl_clearColor (num_lit 0.0) (num_lit 0.0) (num_lit 0.0) (num_lit 0.0)) p in
  let p := gl_clear p in
  let colorFactor := [num_lit 1; num_lit 1; num_lit 1; num_lit 1] in
  let backgroundColor := [num_lit 0.5; num_lit 0.5; num_lit 0.5; num_lit 1.0] in
  paint Background
    (call (SliceViewRenderHelper_draw identityMat4 colorFactor backgroundColor
             (num_lit 0) (num_lit 0) (num_lit 1) (num_lit 1)) p).

(** Lines 164-177 of [draw]: the target is unbound, its color texture is
    copied to the screen and the scale bar is updated; [width] and
    [sliceView] are the locals of [draw]. *)
Definition drawToScreen (width : num) (sliceView : SliceView num Orientation) (p : Panel)
  : Panel :=
  let p := offscreenFramebuffer_unbind p in
  let p := call setGLViewport p in
  let p := call (OffscreenCopyHelper_draw COLOR) p in
  let p := set_scaleBarWidget
             {| targetLengthInPixels := Math_min (width / num_lit 4)%num (num_lit 100);
                nanometersPerPixel := pixelSize sliceView |} p in
  call ScaleBarWidget_update p.

Definition draw (p : Panel) : Panel :=
  let sliceView := sliceView p in
  if negb (hasValidViewport sliceView) then p else
  let width := width sliceView in
  let p := drawBackground p in
  let visibleLayers := visibleLayers p in
  let p := set_pickIDs (pickIDs_clear (pickIDs p)) (call PickIDManager_clear p) in
  let p := fold_left (drawLayer (dataToDevice sliceView)) visibleLayers p in
  let p := drawAxisLines p in
  drawToScreen width sliceView p.

(** The fields a step of [draw] leaves as they are. *)
Definition sameOutsideTarget (p q : Panel) : Prop :=
  gl q = gl p /\ pickIDs q = pickIDs p /\ viewer q = viewer p /\ sliceView q = sliceView p
  /\ visibleLayers q = visibleLayers p /\ scaleBarWidget q = scaleBarWidget p
  /\ fb_size (offscreenFramebuffer q) = fb_size (offscreenFramebuffer p).

(** The panel with the viewer's [showAxisLines] off. *)
Definition hideAxisLines (p : Panel) : Panel :=
  set_viewer (set_showAxisLines false (viewer p)) p.

(** *** updateMouseState *)

Definition set_pickedRenderLayer (l : option SliceViewPanelRenderLayer)
    (m : MouseSelectionState num) : MouseSelectionState num :=
  {| position := position m; pickedRenderLayer := l; pickedValue := pickedValue m |}.

Definition set_position (v : vec3 num) (m : MouseSelectionState num)
  : MouseSelectionState num :=
  {| position := v; pickedRenderLayer := pickedRenderLayer m; pickedValue := pickedValue m |}.

(** Returns the method's result and the mouse state it leaves. *)
Definition updateMouseState (p : Panel) (mouseState : MouseSelectionState num)
  : bool * MouseSelectionState num :=
  let mouseState := set_pickedRenderLayer None mouseState in
  let sliceView := sliceView p in
  if negb (hasValidViewport sliceView) then (false, mouseState) else
  let width := width sliceView in
  let height := height sliceView in
  let offscreenFramebuffer := offscreenFramebuffer p in
  if negb (hasSize offscreenFramebuffer width height) then (false, mouseState) else
  let glWindowX := mouseX p in
  let y := mouseY p in
  let out := vec3_set (glWindowX - width / num_lit 2)%num (y - height / num_lit 2)%num
                      (num_lit 0) in
  let out := vec3_transformMat4 out (viewportToData sliceView) in
  let mouseState := set_position out mouseState in
  let glWindowY := (height - y)%num in
  (true,
   pickIDs_setMouseState (pickIDs p) mouseState
     (readPixelAsUint32 offscreenFramebuffer PICK glWindowX glWindowY)).

(** *** onMousedown and the drag handler *)

(** [viewportAxes[i]]; the array has three elements. *)
Definition viewportAxis (sv : SliceView num Orientation) (i : nat) : vec3 num :=
  nth i (viewportAxes sv) (Vec3 (num_lit 0) (num_lit 0) (num_lit 0)).


(** [this.viewer.navigationState.pose.rotateAbsolute(axis, angle, fixedPoint)] *)
Definition rotateAbsolute (axis : vec3 num) (angle : num) (fixedPoint : vec3 num)
    (p : Panel) : Panel :=
  let nav := pose_rotateAbsolute axis angle fixedPoint (viewer_navigationState (viewer p)) in
  call (Pose_rotateAbsolute axis angle fixedPoint)
    (set_viewer (set_viewer_navigationState nav (viewer p)) p).

(** The callback given to [startRelativeMouseDrag]; [initialPosition] is the
    vector captured when the drag started. *)
Definition dragHandler (initialPosition : vec3 num) (event : MouseEvent)
    (deltaX deltaY : num) (p : Panel) : Panel :=
  if shiftKey event then
    let p := rotateAbsolute (viewportAxis (sliceView p) 1)
               (deltaX / num_lit 4.0 * Math_PI / num_lit 180.0)%num initialPosition p in
    rotateAbsolute (viewportAxis (sliceView p) 0)
      (deltaY / num_lit 4.0 * Math_PI / num_lit 180.0)%num initialPosition p
  else
    let pos := vec3_set deltaX deltaY (num_lit 0) in
    let pos := vec3_transformMat4 pos (viewportToData (sliceView p)) in
    let nav := set_spatialCoordinates pos (viewer_navigationState (viewer p)) in
    call viewer_position_changed_dispatch
      (set_viewer (set_viewer_navigationState nav (viewer p)) p).

(** [onMousedown(e)]; [event] is the global [event] the first test reads.
    The result carries the captured [initialPosition] when a drag was
    started. *)
Definition onMousedown (event e : MouseEvent) (p : Panel) : Panel * option (vec3 num) :=
  if negb (target event =? element p)%nat then (p, None) else
  let p := call (RenderedDataPanel_onMousedown e) p in
  if negb (hasValidViewport (sliceView p)) then (p, None) else
  if (button e =? 0)%Z then
    let '(updated, mouseState') := mouseState_updateUnconditionally (mouseState (viewer p)) in
    let p := set_viewer (set_mouseState mouseState' (viewer p)) p in
    if updated then
      let initialPosition := position (mouseState (viewer p)) in   (* vec3.clone *)
      (call (startRelativeMouseDrag e) p, Some initialPosition)
    else (p, None)
  else (p, None).

(** *** zoomByMouse *)

Definition zoomByMouse (factor : num) (p : Panel) : Panel :=
  let navigationState := sliceView_navigationState (sliceView p) in
  if negb (valid navigationState) then p else
  let sliceView := sliceView p in
  let width := width sliceView in
  let height := height sliceView in
  let mouseX := (mouseX p - width / num_lit 2)%num in
  let mouseY := (mouseY p - height / num_lit 2)%num in
  let oldZoom := zoomFactor navigationState in
  let p := call (NavigationState_zoomBy factor) p in
  let navigationState := navigationState_zoomBy factor navigationState in
  let newZoom := zoomFactor navigationState in
  let spatialCoordinates := spatialCoordinates navigationState in
  let spatialCoordinates :=
    vec3_scaleAndAdd spatialCoordinates (viewportAxis sliceView 0)
      (mouseX * (oldZoom - newZoom))%num in
  let spatialCoordinates :=
    vec3_scaleAndAdd spatialCoordinates (viewportAxis sliceView 1)
      (mouseY * (oldZoom - newZoom))%num in
  let navigationState := set_spatialCoordinates spatialCoordinates navigationState in
  call sliceView_position_changed_dispatch
    (set_sliceView (set_sliceView_navigationState navigationState sliceView) p).

(** *** The handlers given to the VisibleRenderLayerTracker *)

(** The binding [(this.scheduleRedraw, this)]. *)
Definition redrawBinding (p : Panel) : SignalBinding :=
  {| listener := scheduleRedraw_method; context := this p |}.

(** [layer.redrawNeeded] *)
Definition redrawNeededOf (layer : SliceViewPanelRenderLayer) (p : Panel) : Signal :=
  default [] (redrawNeeded p !! layer).

(** [layer => { layer.redrawNeeded.add(this.scheduleRedraw, this);
    this.scheduleRedraw(); }] *)
Definition layerAdded (layer : SliceViewPanelRenderLayer) (p : Panel) : Panel :=
  let s := signal_add (redrawBinding p) (redrawNeededOf layer p) in
  call scheduleRedraw (set_redrawNeeded (<[layer := s]> (redrawNeeded p)) p).

(** [layer => { layer.redrawNeeded.remove(this.scheduleRedraw, this);
    this.scheduleRedraw(); }] *)
Definition layerRemoved (layer : SliceViewPanelRenderLayer) (p : Panel) : Panel :=
  let s := signal_remove (redrawBinding p) (redrawNeededOf layer p) in
  call scheduleRedraw (set_redrawNeeded (<[layer := s]> (redrawNeeded p)) p).

(** Modelled from the spec: the VisibleRenderLayerTracker (neuroglancer/layer
    is not among the sources).  It keeps the layers attached to the panel in
    the order of their attachment, runs the first handler when a layer
    becomes attached and the second when it is detached. *)
Inductive TrackerEvent : Type :=
| Attach (layer : SliceViewPanelRenderLayer)
| Detach (layer : SliceViewPanelRenderLayer).

Definition trackerStep (p : Panel) (ev : TrackerEvent) : Panel :=
  match ev with
  | Attach l => layerAdded l (set_visibleLayers (visibleLayers p ++ [l]) p)
  | Detach l => layerRemoved l (set_visibleLayers (filter (fun l' => l' ≠ l) (visibleLayers p)) p)
  end.

Definition trackerRun (evs : list TrackerEvent) (p : Panel) : Panel :=
  fold_left trackerStep evs p.


(** The number of [scheduleRedraw] calls in a record of calls. *)
Fixpoint redrawsScheduled (cs : list (Call num)) : nat :=
  match cs with
  | [] => 0
  | scheduleRedraw :: cs' => S (redrawsScheduled cs')
  | _ :: cs' => redrawsScheduled cs'
  end.

(** The panel holds one subscription on each attached layer and none on the
    others. *)
Definition subscribedToAttached (p : Panel) : Prop :=
  forall l, subscriptions (redrawBinding p) (redrawNeededOf l p) =
            if bool_decide (l ∈ visibleLayers p) then 1 else 0.

End Panel.

(** ** The collaborators as the specification describes them

    A concrete choice of the collaborators over the rationals, used to
    evaluate the panel on concrete inputs. *)

(** Modelled from the spec: the orientation held by the navigation state's
    pose (the navigation state is not among the sources).  The spec names
    the operation [rotateAbsolute(axis, angleRadians, anchorPoint)] and does
    not say how the pose combines one rotation with the next, so the
    orientation is kept as the rotations asked of the pose, most recent
    first. *)
Record Rotation : Type := { rot_axis : vec3 Q; rot_angle : Q; rot_anchor : vec3 Q }.

(** Modelled from the spec: [pose.rotateAbsolute(axis, angleRadians,
    anchorPoint)] records the rotation asked for. *)
Definition spec_rotateAbsolute (axis : vec3 Q) (angle : Q) (fixedPoint : vec3 Q)
    (n : NavigationState Q (list Rotation)) : NavigationState Q (list Rotation) :=
  {| valid := valid n; spatialCoordinates := spatialCoordinates n;
     orientation := {| rot_axis := axis; rot_angle := angle; rot_anchor := fixedPoint |}
                    :: orientation n;
     zoomFactor := zoomFactor n |}.

(** Modelled from the spec: [zoomBy(factor)], the "multiplicative-zoom
    operation" of the navigation state. *)
Definition spec_zoomBy (factor : Q) (n : NavigationState Q (list Rotation))
  : NavigationState Q (list Rotation) :=
  {| valid := valid n; spatialCoordinates := spatialCoordinates n;
     orientation := orientation n; zoomFactor := (zoomFactor n * factor)%Q |}.

(** Modelled from the spec: the Pick ID Manager (neuroglancer/object_picking
    is not among the sources).  It maps the IDs issued since the last
    [clear], 1, 2, ... in order of registration, to their owner and payload;
    ID 0 is "no object". *)
Definition SpecPickIDs : Type := list (SliceViewPanelRenderLayer * N).

Definition spec_register (owner : SliceViewPanelRenderLayer) (payload : N)
    (m : SpecPickIDs) : SpecPickIDs := m ++ [(owner, payload)].

Definition spec_resolve (m : SpecPickIDs) (pickID : N) : option (SliceViewPanelRenderLayer * N) :=
  match pickID with
  | 0%N => None
  | _ => m !! (N.to_nat pickID - 1)%nat
  end.

Definition spec_setMouseState (m : SpecPickIDs) (ms : MouseSelectionState Q) (pickID : N)
  : MouseSelectionState Q :=
  match spec_resolve m pickID with
  | Some (owner, payload) =>
      {| position := position ms; pickedRenderLayer := Some owner; pickedValue := payload |}
  | None => ms
  end.

(** A layer that registers one pickable object and paints it over the whole
    target: the pick texture then holds, at every pixel, the ID of the layer
    painted last. *)
Definition spec_layer_draw (layer : SliceViewPanelRenderLayer)
    (ctx : SliceViewPanelRenderContext Q SpecPickIDs) : SpecPickIDs :=
  spec_register layer (N.of_nat layer) (ctx_pickIDs ctx).

Fixpoint layersPainted (t : list Painter) : nat :=
  match t with
  | [] => 0
  | LayerContent _ :: t' => S (layersPainted t')
  | _ :: t' => layersPainted t'
  end.

Definition spec_readPixel (t : list Painter) (x y : Q) : N := N.of_nat (layersPainted t).

#[export] Instance Spec_Collaborators : Collaborators Q := {
  Orientation := list Rotation;
  PickIDManager := SpecPickIDs;
  navigationState_zoomBy := spec_zoomBy;
  pose_rotateAbsolute := spec_rotateAbsolute;
  pickIDs_clear := fun _ => [];
  pickIDs_setMouseState := spec_setMouseState;
  renderLayer_draw := spec_layer_draw;
  mouseState_updateUnconditionally := fun ms => (true, ms);
  texture_readPixelAsUint32 := spec_readPixel;
}.

(** ** Concrete inputs *)

Open Scope Q_scope.

Definition axisU : vec3 Q := Vec3 1 0 0.
Definition axisV : vec3 Q := Vec3 0 1 0.
Definition axisW : vec3 Q := Vec3 0 0 1.

(** The matrix of the translation by [t]. *)
Definition translationMat4 (t : vec3 Q) : Mat4 Q :=
  [1; 0; 0; 0;  0; 1; 0; 0;  0; 0; 1; 0;  vx t; vy t; vz t; 1].

Definition exampleNavigationState (pos : vec3 Q) : NavigationState Q (list Rotation) :=
  {| valid := true; spatialCoordinates := pos; orientation := []; zoomFactor := 1 |}.

(** An 800 x 600 viewport centred at [centre], one data unit per pixel. *)
Definition exampleSliceView (centre : vec3 Q) : SliceView Q (list Rotation) :=
  {| hasValidViewport := true; width := 800; height := 600;
     dataToDevice := translationMat4 (Vec3 (- vx centre) (- vy centre) (- vz centre));
     viewportToData := translationMat4 centre;
     pixelSize := 1; viewportAxes := [axisU; axisV; axisW];
     sliceView_navigationState := exampleNavigationState centre |}.

Definition exampleViewer (centre : vec3 Q) : SliceViewerState Q (list Rotation) :=
  {| showAxisLines := true; showScaleBar := true;
     viewer_navigationState := exampleNavigationState centre;
     mouseState := {| position := Vec3 0 0 0; pickedRenderLayer := None; pickedValue := 0%N |} |}.

(** A freshly constructed panel showing layers 7 and 9, with the mouse 100
    pixels right of and 50 pixels below the centre of the viewport. *)
Definition examplePanel (centre : vec3 Q) : SliceViewPanel Q (list Rotation) SpecPickIDs :=
  {| this := 1; element := 2;
     sliceView := exampleSliceView centre; viewer := exampleViewer centre;
     mouseX := 500; mouseY := 350;
     pickIDs := [];
     visibleLayers := [7; 9]%nat;
     redrawNeeded := ∅;
     offscreenFramebuffer := {| fb_size := None; dataTextures := [] |};
     gl := {| offscreenBound := false; drawBuffers := [] |};
     scaleBarWidget := {| targetLengthInPixels := 0; nanometersPerPixel := 0 |};
     calls := [] |}.

(** The same panel before its viewport is valid. *)
Definition notReadyPanel : SliceViewPanel Q (list Rotation) SpecPickIDs :=
  let p := examplePanel (Vec3 0 0 0) in
  let sv := sliceView p in
  {| this := this p; element := element p;
     sliceView :=
       {| hasValidViewport := false; width := 0; height := 0;
          dataToDevice := dataToDevice sv; viewportToData := viewportToData sv;
          pixelSize := pixelSize sv; viewportAxes := viewportAxes sv;
          sliceView_navigationState :=
            {| valid := false; spatialCoordinates := Vec3 0 0 0; orientation := [];
               zoomFactor := 1 |} |};
     viewer := viewer p; mouseX := mouseX p; mouseY := mouseY p; pickIDs := pickIDs p;
     visibleLayers := visibleLayers p; redrawNeeded := redrawNeeded p;
     offscreenFramebuffer := offscreenFramebuffer p; gl := gl p;
     scaleBarWidget := scaleBarWidget p; calls := calls p |}.


(** The example panel with the mouse at the centre of the viewport. *)
Definition centredPanel : SliceViewPanel Q (list Rotation) SpecPickIDs :=
  let p := examplePanel (Vec3 0 0 0) in
  MkPanel (this p) (element p) (sliceView p) (viewer p) 400 300 (pickIDs p) (visibleLayers p)
    (redrawNeeded p) (offscreenFramebuffer p) (gl p) (scaleBarWidget p) (calls p).

(** A panel whose tracker has no layer attached yet. *)
Definition emptyPanel : SliceViewPanel Q (list Rotation) SpecPickIDs :=
  set_visibleLayers [] (examplePanel (Vec3 0 0 0)).


Definition plainDrag : MouseEvent := {| target := 2; button := 0; shiftKey := false |}.

Close Scope Q_scope.

(** ** Rational viewports *)

Section RationalViewports.
Context {C : Collaborators Q}.
Open Scope Q_scope.

(** [viewportToData] is affine: its last row is [(0, 0, 0, 1)]. *)
Definition affine (m : Mat4 Q) : Prop :=
  mat4_at m 3 == 0 /\ mat4_at m 7 == 0 /\ mat4_at m 11 == 0 /\ mat4_at m 15 == 1.



End RationalViewports.

(** ** SupervoxelRenderLayer *)

Module Supervoxel.

Record Uint64 : Type := { low : N; high : N }.

Record SegmentSelectionState : Type := {
  hasSelectedSegment : bool;
  rawSelectedSegment : Uint64;
}.

(** The value given to a uniform, by the call that sets it. *)
Inductive UniformValue (num : Type) : Type :=
| uniform1ui (v : N)
| uniform2ui (v0 v1 : N)
| uniform1f (v : num).
Arguments uniform1ui {num} v.
Arguments uniform2ui {num} v0 v1.
Arguments uniform1f {num} v.

(** What the layer reads of [SliceViewSupervoxelDisplayState]. *)
Record DisplayState (num : Type) : Type := {
  supervoxelColor : vec3 num;          (* supervoxelColor.value *)
  isActive : bool;                     (* isActive.value *)
  performingMulticut : bool;           (* performingMulticut.value *)
  hideSegmentZero : bool;              (* hideSegmentZero.value *)
  segmentSelectionState : SegmentSelectionState;
}.
Arguments supervoxelColor {num} d.
Arguments isActive {num} d.
Arguments performingMulticut {num} d.
Arguments hideSegmentZero {num} d.
Arguments segmentSelectionState {num} d.

(** The state of the shader program the layer draws with: the value of each
    uniform that has been set. *)
Record ShaderState (num : Type) : Type := {
  uniformValues : gmap string (UniformValue num);
}.
Arguments uniformValues {num} s.

Section Layer.
Context {num : Type}.

Definition setUniform (name : string) (v : UniformValue num) (s : ShaderState num)
  : ShaderState num :=
  {| uniformValues := <[name := v]> (uniformValues s) |}.

(** [beginSlice(sliceView)].  [superShader] is what the base layer's
    [beginSlice] returned ([None] for [undefined]) and [s] the state it
    left; [hashTableManager_enable] is the hash-table shader manager's
    [enable], on the state of the program. *)
Definition beginSlice {Shader : Type}
    (hashTableManager_enable : ShaderState num -> ShaderState num)
    (superShader : option Shader) (displayState : DisplayState num) (s : ShaderState num)
  : ShaderState num * option Shader :=
  match superShader with
  | None => (s, None)
  | Some shader =>
      let segmentSelectionState := segmentSelectionState displayState in
      let '(rawSelectedSegmentLow, rawSelectedSegmentHigh) :=
        if hasSelectedSegment segmentSelectionState then
          let rawSeg := rawSelectedSegment segmentSelectionState in
          (low rawSeg, high rawSeg)
        else (0%N, 0%N) in
      let s := setUniform "uIsActive"
                 (uniform1ui (if isActive displayState then 1 else 0)%N) s in
      let s := setUniform "uPerformingMulticut"
                 (uniform1ui (if performingMulticut displayState then 1 else 0)%N) s in
      let s := setUniform "uRawSelectedSegment"
                 (uniform2ui rawSelectedSegmentLow rawSelectedSegmentHigh) s in
      let s := setUniform "uSupervoxelRedValue"
                 (uniform1f (vx (supervoxelColor displayState))) s in
      let s := setUniform "uSupervoxelGreenValue"
                 (uniform1f (vy (supervoxelColor displayState))) s in
      let s := setUniform "uSupervoxelBlueValue"
                 (uniform1f (vz (supervoxelColor displayState))) s in
      let s := hashTableManager_enable s in
      (s, Some shader)
  end.

End Layer.

End Supervoxel.

(** * Properties *)

Unset Implicit Arguments.

(** ** Signals *)

Section SignalFacts.
Implicit Types (b : SignalBinding) (s : Signal).

Lemma subscriptions_cons b b' s :
  subscriptions b (b' :: s) = (if bool_decide (b' = b) then 1 else 0) + subscriptions b s.
Proof.
  unfold subscriptions. rewrite filter_cons.
  case_bool_decide; destruct (decide (b' = b)); done.
Qed.

Lemma subscriptions_zero b s : subscriptions b s = 0 <-> b ∉ s.
Proof.
  induction s as [|b' s IH].
  - split; [intros _; apply not_elem_of_nil | done].
  - rewrite subscriptions_cons, not_elem_of_cons.
    case_bool_decide as Heq.
    + subst. split; [intros Hz; lia | intros [Hne _]; done].
    + cbn. rewrite IH. split; [intros Hn; split; [congruence | done] | tauto].
Qed.

Lemma signal_add_fresh b s :
  subscriptions b s = 0 -> signal_add b s = b :: s.
Proof.
  intros H%subscriptions_zero. unfold signal_add. by rewrite bool_decide_eq_false_2.
Qed.

Lemma signal_add_subscriptions b s :
  subscriptions b s <= 1 -> subscriptions b (signal_add b s) = 1.
Proof.
  intros Hle. unfold signal_add. case_bool_decide as Hin.
  - destruct (subscriptions b s) as [|[|n]] eqn:E; [|done|lia].
    by apply subscriptions_zero in E.
  - rewrite subscriptions_cons, bool_decide_eq_true_2 by done.
    apply subscriptions_zero in Hin. lia.
Qed.

Lemma signal_add_other b b' s :
  b' ≠ b -> subscriptions b' (signal_add b s) = subscriptions b' s.
Proof.
  intros Hne. unfold signal_add. case_bool_decide; [done|].
  rewrite subscriptions_cons, bool_decide_eq_false_2; [done|congruence].
Qed.

Lemma signal_remove_subscriptions b s :
  subscriptions b (signal_remove b s) = pred (subscriptions b s).
Proof.
  induction s as [|b' s IH]; [done|]. cbn [signal_remove].
  case_bool_decide as Heq.
  - subst. by rewrite subscriptions_cons, bool_decide_eq_true_2.
  - rewrite !subscriptions_cons, bool_decide_eq_false_2 by congruence. by rewrite IH.
Qed.

Lemma signal_remove_other b b' s :
  b' ≠ b -> subscriptions b' (signal_remove b s) = subscriptions b' s.
Proof.
  intros Hne. induction s as [|b0 s IH]; [done|]. cbn [signal_remove].
  case_bool_decide as Heq.
  - subst. rewrite subscriptions_cons, bool_decide_eq_false_2; [done|congruence].
  - by rewrite !subscriptions_cons, IH.
Qed.

End SignalFacts.


Section PanelFacts.
Context {num : Type} {JSN : JSNumber num} {C : Collaborators num}.

Abbreviation Panel := (SliceViewPanel num Orientation PickIDManager).

(** ** zoomByMouse *)


(** ** draw *)

Lemma textureAt_texOpt (p : Panel) (i : nat) : textureAt p i = default [] (texOpt p i).
Proof. unfold textureAt, texOpt. apply nth_lookup. Qed.

Lemma call_calls (c : Call num) (p : Panel) : calls (call c p) = calls p ++ [c].
Proof. by destruct p. Qed.

Lemma on_drawBuffers_textures (f : list Painter -> list Painter) (p : Panel) (i : nat) :
  texOpt (on_drawBuffers f p) i =
  (if offscreenBound (gl p) && bool_decide (i ∈ drawBuffers (gl p)) then f <$> texOpt p i
   else texOpt p i).
Proof.
  unfold on_drawBuffers, texOpt.
  destruct (offscreenBound (gl p)) eqn:Hb; cbn [andb]; [|reflexivity].
  destruct p as [t e sv v mx my pk vl rn fb g sb cs]. cbn.
  rewrite list_lookup_imap.
  destruct (dataTextures fb !! i) as [tx|]; cbn;
    destruct (bool_decide (i ∈ drawBuffers g)); reflexivity.
Qed.

Lemma on_drawBuffers_frame (f : list Painter -> list Painter) (p : Panel) :
  calls (on_drawBuffers f p) = calls p /\ sameOutsideTarget p (on_drawBuffers f p).
Proof.
  unfold on_drawBuffers, sameOutsideTarget. destruct (offscreenBound (gl p)); [|done].
  by destruct p.
Qed.

(** *** The background pass *)

Lemma drawBackground_calls (p : Panel) :
  calls (drawBackground p) =
  calls p ++ [SliceView_updateRendering;
              OffscreenFramebuffer_bind (width (sliceView p)) (height (sliceView p));
              gl_disable_SCISSOR_TEST;
              gl_clearColor (num_lit 0.0) (num_lit 0.0) (num_lit 0.0) (num_lit 0.0);
              gl_clear_COLOR_BUFFER_BIT;
              SliceViewRenderHelper_draw identityMat4
                [num_lit 1; num_lit 1; num_lit 1; num_lit 1]
                [num_lit 0.5; num_lit 0.5; num_lit 0.5; num_lit 1.0]
                (num_lit 0) (num_lit 0) (num_lit 1) (num_lit 1)].
Proof.
  destruct p as [t e sv v mx my pk vl rn fb g sb cs].
  unfold drawBackground, offscreenFramebuffer_bind, gl_clear, paint, on_drawBuffers. cbn.
  by rewrite <- !app_assoc.
Qed.

Lemma drawBackground_frame (p : Panel) :
  gl (drawBackground p) = {| offscreenBound := true; drawBuffers := [0; 1] |}
  /\ pickIDs (drawBackground p) = pickIDs p /\ viewer (drawBackground p) = viewer p
  /\ sliceView (drawBackground p) = sliceView p
  /\ visibleLayers (drawBackground p) = visibleLayers p
  /\ fb_size (offscreenFramebuffer (drawBackground p)) =
     fb_size (resized (offscreenFramebuffer p) (width (sliceView p)) (height (sliceView p))).
Proof.
  destruct p as [t e sv v mx my pk vl rn fb g sb cs].
  unfold drawBackground, offscreenFramebuffer_bind, gl_clear, paint, on_drawBuffers. by cbn.
Qed.

Lemma drawBackground_textures (p : Panel) (i : nat) :
  texOpt (drawBackground p) i =
  let fb := resized (offscreenFramebuffer p) (width (sliceView p)) (height (sliceView p)) in
  if bool_decide (i ∈ [0; 1]) then (fun _ => [Background]) <$> dataTextures fb !! i
  else dataTextures fb !! i.
Proof.
  destruct p as [t e sv v mx my pk vl rn fb g sb cs].
  unfold drawBackground, offscreenFramebuffer_bind, gl_clear, paint, on_drawBuffers, texOpt.
  cbn. rewrite !list_lookup_imap.
  destruct (dataTextures (resized fb (width sv) (height sv)) !! i); cbn;
    by destruct (bool_decide (i ∈ [0; 1])).
Qed.

(** *** The layer loop *)

Lemma drawLayer_calls (d : Mat4 num) (l : SliceViewPanelRenderLayer) (p : Panel) :
  calls (drawLayer d p l) = calls p ++ [RenderLayer_draw l d].
Proof.
  unfold drawLayer, paint.
  destruct (on_drawBuffers_frame (fun t => t ++ [LayerContent l]) (call (RenderLayer_draw l d) p))
    as [Hc _].
  rewrite <- call_calls, <- Hc. by destruct (on_drawBuffers _ _).
Qed.

Lemma drawLayer_frame (d : Mat4 num) (l : SliceViewPanelRenderLayer) (p : Panel) :
  gl (drawLayer d p l) = gl p /\ viewer (drawLayer d p l) = viewer p
  /\ sliceView (drawLayer d p l) = sliceView p
  /\ pickIDs (drawLayer d p l) =
     renderLayer_draw l {| ctx_dataToDevice := d; ctx_pickIDs := pickIDs p |}.
Proof.
  unfold drawLayer, paint.
  destruct (on_drawBuffers_frame (fun t => t ++ [LayerContent l]) (call (RenderLayer_draw l d) p))
    as (_ & Hg & _ & Hv & Hs & _).
  destruct (on_drawBuffers _ _); cbn in *. by destruct p.
Qed.

Lemma drawLayer_textures (d : Mat4 num) (l : SliceViewPanelRenderLayer) (p : Panel) (i : nat) :
  texOpt (drawLayer d p l) i =
  (if offscreenBound (gl p) && bool_decide (i ∈ drawBuffers (gl p))
   then (fun t => t ++ [LayerContent l]) <$> texOpt p i
   else texOpt p i).
Proof.
  unfold drawLayer, paint.
  transitivity (texOpt (on_drawBuffers (fun t => t ++ [LayerContent l])
                          (call (RenderLayer_draw l d) p)) i).
  { by destruct (on_drawBuffers _ _). }
  rewrite on_drawBuffers_textures. by destruct p.
Qed.

Lemma drawLayers_calls (d : Mat4 num) (ls : list SliceViewPanelRenderLayer) (p : Panel) :
  calls (fold_left (drawLayer d) ls p) = calls p ++ map (fun l => RenderLayer_draw l d) ls.
Proof.
  revert p. induction ls as [|l ls IH]; intros p; cbn [fold_left map].
  - by rewrite app_nil_r.
  - by rewrite IH, drawLayer_calls, <- app_assoc.
Qed.

Lemma drawLayers_frame (d : Mat4 num) (ls : list SliceViewPanelRenderLayer) (p : Panel) :
  gl (fold_left (drawLayer d) ls p) = gl p
  /\ viewer (fold_left (drawLayer d) ls p) = viewer p
  /\ sliceView (fold_left (drawLayer d) ls p) = sliceView p
  /\ pickIDs (fold_left (drawLayer d) ls p) =
     fold_left (fun m l => renderLayer_draw l {| ctx_dataToDevice := d; ctx_pickIDs := m |})
               ls (pickIDs p).
Proof.
  revert p. induction ls as [|l ls IH]; intros p; cbn [fold_left]; [done|].
  destruct (IH (drawLayer d p l)) as (-> & -> & -> & ->).
  by destruct (drawLayer_frame d l p) as (-> & -> & -> & ->).
Qed.

Lemma drawLayers_textures (d : Mat4 num) (ls : list SliceViewPanelRenderLayer) (p : Panel)
    (i : nat) :
  texOpt (fold_left (drawLayer d) ls p) i =
  (if offscreenBound (gl p) && bool_decide (i ∈ drawBuffers (gl p))
   then (fun t => t ++ map LayerContent ls) <$> texOpt p i
   else texOpt p i).
Proof.
  revert p. induction ls as [|l ls IH]; intros p; cbn [fold_left map].
  - destruct (_ && _); [|done]. destruct (texOpt p i); cbn; by rewrite ?app_nil_r.
  - rewrite IH, drawLayer_textures. destruct (drawLayer_frame d l p) as (-> & _).
    destruct (_ && _); [|done]. destruct (texOpt p i); cbn; [|done].
    by rewrite <- app_assoc.
Qed.

(** *** The overlay pass and the copy to the screen *)

Lemma drawAxisLines_calls (p : Panel) :
  calls (drawAxisLines p) =
  calls p ++ (if showAxisLines (viewer p)
              then [gl_drawBuffersWEBGL [COLOR_ATTACHMENT0_WEBGL];
                    AxesLineHelper_draw (axesMatrix (sliceView p))]
              else []).
Proof.
  unfold drawAxisLines. destruct (showAxisLines (viewer p)); [|by rewrite app_nil_r].
  unfold paint. destruct (on_drawBuffers_frame (fun t => t ++ [AxesLines])
    (call (AxesLineHelper_draw (axesMatrix (sliceView p)))
       (drawBuffersWEBGL [COLOR_ATTACHMENT0_WEBGL] p))) as [-> _].
  destruct p. unfold drawBuffersWEBGL. cbn. by rewrite <- app_assoc.
Qed.

Lemma drawAxisLines_pickIDs (p : Panel) : pickIDs (drawAxisLines p) = pickIDs p.
Proof.
  unfold drawAxisLines. destruct (showAxisLines (viewer p)); [|done].
  unfold paint. destruct (on_drawBuffers_frame (fun t => t ++ [AxesLines])
    (call (AxesLineHelper_draw (axesMatrix (sliceView p)))
       (drawBuffersWEBGL [COLOR_ATTACHMENT0_WEBGL] p))) as (_ & _ & -> & _).
  by destruct p.
Qed.

Lemma drawAxisLines_textures (p : Panel) (i : nat) :
  texOpt (drawAxisLines p) i =
  (if showAxisLines (viewer p) && offscreenBound (gl p)
      && bool_decide (i = COLOR_ATTACHMENT0_WEBGL)
   then (fun t => t ++ [AxesLines]) <$> texOpt p i
   else texOpt p i).
Proof.
  unfold drawAxisLines. destruct (showAxisLines (viewer p)); [|done].
  unfold paint. rewrite on_drawBuffers_textures.
  destruct p as [t e sv v mx my pk vl rn fb g sb cs]. unfold drawBuffersWEBGL, texOpt. cbn.
  destruct (offscreenBound g); [|done]. cbn.
  destruct (decide (i = COLOR_ATTACHMENT0_WEBGL)) as [->|Hne].
  - rewrite !bool_decide_eq_true_2; [done..|]. by apply list_elem_of_singleton.
  - rewrite !bool_decide_eq_false_2; [done..|]. by rewrite list_elem_of_singleton.
Qed.

Lemma drawToScreen_calls (w : num) (sv : SliceView num Orientation) (p : Panel) :
  calls (drawToScreen w sv p) =
  calls p ++ [OffscreenFramebuffer_unbind; setGLViewport; OffscreenCopyHelper_draw COLOR;
              ScaleBarWidget_update].
Proof.
  destruct p. unfold drawToScreen, offscreenFramebuffer_unbind. cbn.
  by rewrite <- !app_assoc.
Qed.

Lemma drawToScreen_frame (w : num) (sv : SliceView num Orientation) (p : Panel) :
  pickIDs (drawToScreen w sv p) = pickIDs p
  /\ offscreenFramebuffer (drawToScreen w sv p) = offscreenFramebuffer p
  /\ scaleBarWidget (drawToScreen w sv p) =
     {| targetLengthInPixels := Math_min (w / num_lit 4)%num (num_lit 100);
        nanometersPerPixel := pixelSize sv |}.
Proof. by destruct p. Qed.

(** C6. In a [draw] with a valid viewport the Pick ID Manager is cleared
    before any layer is drawn, the visible layers are drawn in the order the
    tracker lists them, each with the render context holding
    [sliceView.dataToDevice] and the panel's one manager (so a layer sees
    what the layers before it registered), and the axis lines, when shown,
    are drawn after the last layer. *)
Theorem draw_order (p : Panel) :
  hasValidViewport (sliceView p) = true ->
  let sv := sliceView p in
  calls (draw p) =
    calls p
    ++ [SliceView_updateRendering;
        OffscreenFramebuffer_bind (width sv) (height sv);
        gl_disable_SCISSOR_TEST;
        gl_clearColor (num_lit 0.0) (num_lit 0.0) (num_lit 0.0) (num_lit 0.0);
        gl_clear_COLOR_BUFFER_BIT;
        SliceViewRenderHelper_draw identityMat4
          [num_lit 1; num_lit 1; num_lit 1; num_lit 1]
          [num_lit 0.5; num_lit 0.5; num_lit 0.5; num_lit 1.0]
          (num_lit 0) (num_lit 0) (num_lit 1) (num_lit 1);
        PickIDManager_clear]
    ++ map (fun l => RenderLayer_draw l (dataToDevice sv)) (visibleLayers p)
    ++ (if showAxisLines (viewer p)
        then [gl_drawBuffersWEBGL [COLOR_ATTACHMENT0_WEBGL]; AxesLineHelper_draw (axesMatrix sv)]
        else [])
    ++ [OffscreenFramebuffer_unbind; setGLViewport; OffscreenCopyHelper_draw COLOR;
        ScaleBarWidget_update]
  /\ pickIDs (draw p) =
      fold_left (fun m l => renderLayer_draw l {| ctx_dataToDevice := dataToDevice sv;
                                                  ctx_pickIDs := m |})
                (visibleLayers p) (pickIDs_clear (pickIDs p)).
Proof.
  intros Hvalid sv. subst sv. unfold draw. rewrite Hvalid. cbn [negb]. cbv zeta.
  destruct (drawBackground_frame p) as (Hgl & Hpk & Hv & Hs & Hvl & _).
  rewrite Hvl, Hpk.
  set (q := set_pickIDs (pickIDs_clear (pickIDs p)) (call PickIDManager_clear (drawBackground p))).
  assert (Hq : calls q = calls (drawBackground p) ++ [PickIDManager_clear]
               /\ viewer q = viewer p /\ sliceView q = sliceView p
               /\ pickIDs q = pickIDs_clear (pickIDs p)).
  { subst q. rewrite <- Hv, <- Hs. by destruct (drawBackground p). }
  destruct Hq as (Hqc & Hqv & Hqs & Hqp).
  destruct (drawLayers_frame (dataToDevice (sliceView p)) (visibleLayers p) q)
    as (_ & Hlv & Hls & Hlp).
  split.
  - rewrite drawToScreen_calls, drawAxisLines_calls, drawLayers_calls, Hlv, Hls, Hqv, Hqs,
      Hqc, drawBackground_calls.
    by rewrite <- !app_assoc.
  - destruct (drawToScreen_frame (width (sliceView p)) (sliceView p)
                (drawAxisLines (fold_left (drawLayer (dataToDevice (sliceView p)))
                                          (visibleLayers p) q))) as (-> & _).
    by rewrite drawAxisLines_pickIDs, Hlp, Hqp.
Qed.

(** The textures [draw] leaves, by index. *)
Lemma draw_textures (p : Panel) (i : nat) :
  hasValidViewport (sliceView p) = true ->
  texOpt (draw p) i =
  let fb := resized (offscreenFramebuffer p) (width (sliceView p)) (height (sliceView p)) in
  if bool_decide (i ∈ [COLOR; PICK])
  then (fun _ => Background :: map LayerContent (visibleLayers p)
                 ++ (if showAxisLines (viewer p) && bool_decide (i = COLOR_ATTACHMENT0_WEBGL)
                     then [AxesLines] else []))
       <$> dataTextures fb !! i
  else dataTextures fb !! i.
Proof.
  intros Hvalid. unfold draw. rewrite Hvalid. cbn [negb]. cbv zeta.
  destruct (drawBackground_frame p) as (Hgl & Hpk & Hv & Hs & Hvl & _).
  rewrite Hvl, Hpk.
  set (q := set_pickIDs (pickIDs_clear (pickIDs p)) (call PickIDManager_clear (drawBackground p))).
  assert (Hq : gl q = {| offscreenBound := true; drawBuffers := [0; 1] |}
               /\ viewer q = viewer p /\ texOpt q i = texOpt (drawBackground p) i).
  { subst q. rewrite <- Hv, <- Hgl. by destruct (drawBackground p). }
  destruct Hq as (Hqg & Hqv & Hqt).
  destruct (drawLayers_frame (dataToDevice (sliceView p)) (visibleLayers p) q)
    as (Hlg & Hlv & _).
  unfold texOpt at 1.
  destruct (drawToScreen_frame (width (sliceView p)) (sliceView p)
              (drawAxisLines (fold_left (drawLayer (dataToDevice (sliceView p)))
                                        (visibleLayers p) q))) as (_ & -> & _).
  fold (texOpt (drawAxisLines (fold_left (drawLayer (dataToDevice (sliceView p)))
                                         (visibleLayers p) q)) i).
  rewrite drawAxisLines_textures, drawLayers_textures, Hlg, Hlv, Hqg, Hqv, Hqt,
    drawBackground_textures.
  cbn [offscreenBound drawBuffers andb]. cbv zeta.
  change [COLOR; PICK] with [0; 1].
  generalize (dataTextures (resized (offscreenFramebuffer p) (width (sliceView p))
                                    (height (sliceView p))) !! i).
  intros o.
  destruct (decide (i = 0)) as [->|H0]; [|destruct (decide (i = 1)) as [->|H1]].
  - destruct (showAxisLines (viewer p)), o; cbn; by rewrite ?app_nil_r.
  - destruct (showAxisLines (viewer p)), o; cbn; by rewrite ?app_nil_r.
  - rewrite (bool_decide_eq_false_2 (i ∈ [0; 1])).
    + rewrite (bool_decide_eq_false_2 (i = COLOR_ATTACHMENT0_WEBGL)) by done.
      by rewrite andb_false_r.
    + rewrite !elem_of_cons, elem_of_nil. tauto.
Qed.

(** C7. In a [draw] that shows the axis lines, the overlay pass paints into
    the color texture only: the pick texture, and so every value read back
    from it, is what it is when the axis lines are hidden, and the axis lines
    are not among what was painted into it. *)
Theorem axis_lines_not_pickable (p : Panel) :
  hasValidViewport (sliceView p) = true ->
  texOpt (draw p) PICK = texOpt (draw (hideAxisLines p)) PICK
  /\ (AxesLines ∉ textureAt (draw p) PICK)
  /\ (forall x y : num,
        readPixelAsUint32 (offscreenFramebuffer (draw p)) PICK x y =
        readPixelAsUint32 (offscreenFramebuffer (draw (hideAxisLines p))) PICK x y)
  /\ (showAxisLines (viewer p) = true ->
      texOpt (draw p) COLOR =
      (fun t => t ++ [AxesLines]) <$> texOpt (draw (hideAxisLines p)) COLOR).
Proof.
  intros Hvalid.
  assert (Hvalid' : hasValidViewport (sliceView (hideAxisLines p)) = true) by by destruct p.
  assert (Hpick : texOpt (draw p) PICK = texOpt (draw (hideAxisLines p)) PICK).
  { rewrite !draw_textures by done. destruct p as [t e sv v mx my pk vl rn fb g sb cs].
    cbn. by rewrite !andb_false_r. }
  split; [done|]. split; [|split].
  - rewrite textureAt_texOpt, draw_textures by done. cbn.
    rewrite andb_false_r, app_nil_r.
    destruct (dataTextures _ !! PICK); cbn; [|by apply not_elem_of_nil].
    intros [Heq|Hin]%elem_of_cons; [done|].
    apply list_elem_of_fmap in Hin as (l' & Heq & _). done.
  - intros x y. unfold readPixelAsUint32.
    change (nth PICK (dataTextures (offscreenFramebuffer ?q)) []) with (textureAt q PICK).
    by rewrite !textureAt_texOpt, Hpick.
  - intros Hshow. rewrite !draw_textures by done.
    destruct p as [t e sv v mx my pk vl rn fb g sb cs]. cbn in *. rewrite Hshow. cbn.
    destruct (dataTextures _ !! COLOR); cbn; [|done].
    by rewrite app_nil_r.
Qed.

(** C8. While the viewport is not valid, [draw] does nothing: the panel is
    left as it is, so no call is made on any collaborator (no rendering
    update, no bind, no clearing of the Pick ID Manager, no layer draw) and
    the offscreen target and the manager are untouched. *)
Theorem draw_not_ready (p : Panel) :
  hasValidViewport (sliceView p) = false ->
  draw p = p
  /\ calls (draw p) = calls p
  /\ offscreenFramebuffer (draw p) = offscreenFramebuffer p
  /\ pickIDs (draw p) = pickIDs p.
Proof. intros Hinvalid. unfold draw. by rewrite Hinvalid. Qed.

(** [draw] on a valid viewport leaves the scale bar's dimensions set from
    the width read at its start and the slice view's pixel size. *)
Lemma draw_scaleBarWidget (p : Panel) :
  hasValidViewport (sliceView p) = true ->
  scaleBarWidget (draw p) =
  {| targetLengthInPixels := Math_min (width (sliceView p) / num_lit 4)%num (num_lit 100);
     nanometersPerPixel := pixelSize (sliceView p) |}.
Proof.
  intros Hvalid. unfold draw. rewrite Hvalid. cbn [negb]. cbv zeta.
  by destruct (drawToScreen_frame (width (sliceView p)) (sliceView p)
              (drawAxisLines (fold_left (drawLayer (dataToDevice (sliceView p)))
                (visibleLayers (drawBackground p))
                (set_pickIDs (pickIDs_clear (pickIDs (drawBackground p)))
                   (call PickIDManager_clear (drawBackground p)))))) as (_ & _ & ->).
Qed.


(** ** The drag handler *)



(** ** The visible layer tracker's handlers *)

Lemma redrawNeededOf_insert (l l' : SliceViewPanelRenderLayer) (s : Signal) (p : Panel) :
  redrawNeededOf l' (set_redrawNeeded (<[l := s]> (redrawNeeded p)) p) =
  if bool_decide (l' = l) then s else redrawNeededOf l' p.
Proof.
  destruct p. unfold redrawNeededOf. cbn. case_bool_decide as Heq.
  - subst. by rewrite lookup_insert_eq.
  - by rewrite lookup_insert_ne.
Qed.

(** The attach handler on a layer the panel is not subscribed to. *)
Lemma layerAdded_subscribes (l : SliceViewPanelRenderLayer) (p : Panel) :
  subscriptions (redrawBinding p) (redrawNeededOf l p) = 0 ->
  let q := layerAdded l p in
  redrawNeededOf l q = redrawBinding p :: redrawNeededOf l p
  /\ (forall l', l' ≠ l -> redrawNeededOf l' q = redrawNeededOf l' p)
  /\ calls q = calls p ++ [scheduleRedraw]
  /\ this q = this p /\ visibleLayers q = visibleLayers p.
Proof.
  intros Hfresh q. subst q. unfold layerAdded. cbv zeta.
  rewrite (signal_add_fresh _ _ Hfresh).
  split; [|split; [|by destruct p]].
  - transitivity (redrawNeededOf l
      (set_redrawNeeded (<[l := redrawBinding p :: redrawNeededOf l p]> (redrawNeeded p)) p)).
    { by destruct p. }
    by rewrite redrawNeededOf_insert, bool_decide_eq_true_2.
  - intros l' Hne.
    transitivity (redrawNeededOf l'
      (set_redrawNeeded (<[l := redrawBinding p :: redrawNeededOf l p]> (redrawNeeded p)) p)).
    { by destruct p. }
    by rewrite redrawNeededOf_insert, bool_decide_eq_false_2.
Qed.

(** The detach handler. *)
Lemma layerRemoved_unsubscribes (l : SliceViewPanelRenderLayer) (p : Panel) :
  let q := layerRemoved l p in
  redrawNeededOf l q = signal_remove (redrawBinding p) (redrawNeededOf l p)
  /\ (forall l', l' ≠ l -> redrawNeededOf l' q = redrawNeededOf l' p)
  /\ calls q = calls p ++ [scheduleRedraw]
  /\ this q = this p /\ visibleLayers q = visibleLayers p.
Proof.
  intros q. subst q. unfold layerRemoved. cbv zeta.
  split; [|split; [|by destruct p]].
  - transitivity (redrawNeededOf l
      (set_redrawNeeded (<[l := signal_remove (redrawBinding p) (redrawNeededOf l p)]>
                           (redrawNeeded p)) p)).
    { by destruct p. }
    by rewrite redrawNeededOf_insert, bool_decide_eq_true_2.
  - intros l' Hne.
    transitivity (redrawNeededOf l'
      (set_redrawNeeded (<[l := signal_remove (redrawBinding p) (redrawNeededOf l p)]>
                           (redrawNeeded p)) p)).
    { by destruct p. }
    by rewrite redrawNeededOf_insert, bool_decide_eq_false_2.
Qed.

Lemma redrawsScheduled_app (cs cs' : list (Call num)) :
  redrawsScheduled (cs ++ cs') = redrawsScheduled cs + redrawsScheduled cs'.
Proof. induction cs as [|c cs IH]; [done|]. destruct c; cbn; by rewrite ?IH. Qed.




End PanelFacts.

(** ** The scale bar *)

(** C10. A [draw] on a valid viewport leaves the scale bar's dimensions at
    [targetLengthInPixels = Math.min(width / 4, 100)] and
    [nanometersPerPixel = sliceView.pixelSize], [width] being the viewport
    width of that frame; over the rationals the target length is at most 100
    whatever the width. *)
Theorem draw_sets_scale_bar :
  (forall (num : Type) (JSN : JSNumber num) (C : Collaborators num)
          (p : SliceViewPanel num Orientation PickIDManager),
      hasValidViewport (sliceView p) = true ->
      scaleBarWidget (draw p) =
      {| targetLengthInPixels := Math_min (width (sliceView p) / num_lit 4)%num (num_lit 100);
         nanometersPerPixel := pixelSize (sliceView p) |})
  /\ (forall (C : Collaborators Q) (p : SliceViewPanel Q Orientation PickIDManager),
      hasValidViewport (sliceView p) = true ->
      (targetLengthInPixels (scaleBarWidget (draw p)) <= 100)%Q).
Proof.
  split.
  - intros num JSN C p Hvalid. by apply draw_scaleBarWidget.
  - intros C p Hvalid. rewrite draw_scaleBarWidget by done. cbn. apply Q.le_min_r.
Qed.

(** * Further properties *)

Section MoreFacts.
Context {num : Type} {JSN : JSNumber num} {C : Collaborators num}.

Abbreviation Panel := (SliceViewPanel num Orientation PickIDManager).

(** ** onMousedown *)

(** [onMousedown] starts a drag exactly when the event is on the panel's own
    element, the viewport is valid, the primary button is down and the mouse
    state could be updated; the anchor it captures is the position of the
    updated mouse state.  The inherited handler runs whenever the event is on
    the panel's element, and nothing at all happens otherwise. *)
Theorem onMousedown_starts_drag (event e : MouseEvent) (p : Panel) :
  let update := mouseState_updateUnconditionally (mouseState (viewer p)) in
  let onElement := (target event =? element p)%nat in
  let starts := onElement && hasValidViewport (sliceView p) && (button e =? 0)%Z
                && fst update in
  snd (onMousedown event e p) = (if starts then Some (position (snd update)) else None)
  /\ calls (fst (onMousedown event e p)) =
     calls p ++ (if onElement then [RenderedDataPanel_onMousedown e] else [])
             ++ (if starts then [startRelativeMouseDrag e] else [])
  /\ (onElement = false -> fst (onMousedown event e p) = p).
Proof.
  intros update onElement starts. subst update onElement starts. unfold onMousedown.
  destruct p as [t el sv v mx my pk vl rn fb g sb cs]. cbn.
  destruct (target event =? el)%nat; cbn; [|by rewrite ?app_nil_r].
  destruct (hasValidViewport sv); cbn; [|by rewrite ?app_nil_r].
  destruct (button e =? 0)%Z; cbn; [|by rewrite ?app_nil_r].
  destruct (mouseState_updateUnconditionally (mouseState v)) as [[|] ms']; cbn.
  - by rewrite <- app_assoc.
  - by rewrite ?app_nil_r.
Qed.

(** ** The matrix of the axis lines *)

(** The loops that build the matrix of the axis lines keep its 16 entries in
    place: they zero the translation (entries 12 to 14) and the third row
    (entries 2, 6, 10, 14) and scale the first twelve entries by
    [axisLength * pixelSize], with [axisLength = min(width, height) / 4 * 1.5];
    entry 15 is that of [dataToDevice]. *)
Theorem axesMatrix_entries (sv : SliceView num Orientation)
    (m0 m1 m2 m3 m4 m5 m6 m7 m8 m9 m10 m11 m12 m13 m14 m15 : num) :
  dataToDevice sv = [m0; m1; m2; m3; m4; m5; m6; m7; m8; m9; m10; m11; m12; m13; m14; m15] ->
  let k := (Math_min (width sv) (height sv) / num_lit 4 * num_lit 1.5 * pixelSize sv)%num in
  let o := num_lit 0 in
  axesMatrix sv =
  [(m0 * k)%num; (m1 * k)%num; (o * k)%num; (m3 * k)%num;
   (m4 * k)%num; (m5 * k)%num; (o * k)%num; (m7 * k)%num;
   (m8 * k)%num; (m9 * k)%num; (o * k)%num; (m11 * k)%num;
   o; o; o; m15].
Proof. intros Hm k o. subst k o. unfold axesMatrix. rewrite Hm. reflexivity. Qed.


(** ** A frame and the read-back that follows it *)

Lemma hasSize_resized (fb : OffscreenFramebuffer num) (w h : num) :
  strict_eq w w = true -> strict_eq h h = true -> hasSize (resized fb w h) w h = true.
Proof.
  intros Hw Hh. unfold resized. destruct (hasSize fb w h) eqn:E; [done|].
  unfold hasSize. cbn. by rewrite Hw, Hh.
Qed.

Lemma drawLayers_fb_size (d : Mat4 num) (ls : list SliceViewPanelRenderLayer) (p : Panel) :
  fb_size (offscreenFramebuffer (fold_left (drawLayer d) ls p)) =
  fb_size (offscreenFramebuffer p).
Proof.
  revert p. induction ls as [|l ls IH]; intros p; cbn [fold_left]; [done|].
  rewrite IH. unfold drawLayer, paint.
  destruct (on_drawBuffers_frame (fun t => t ++ [LayerContent l])
              (call (RenderLayer_draw l d) p)) as (_ & _ & _ & _ & _ & _ & _ & Hsize).
  transitivity (fb_size (offscreenFramebuffer
    (on_drawBuffers (fun t => t ++ [LayerContent l]) (call (RenderLayer_draw l d) p)))).
  { by destruct (on_drawBuffers _ _). }
  rewrite Hsize. by destruct p.
Qed.

Lemma drawAxisLines_frame (p : Panel) :
  sliceView (drawAxisLines p) = sliceView p
  /\ fb_size (offscreenFramebuffer (drawAxisLines p)) = fb_size (offscreenFramebuffer p)
  /\ drawBuffers (gl (drawAxisLines p)) =
     (if showAxisLines (viewer p) then [COLOR_ATTACHMENT0_WEBGL] else drawBuffers (gl p)).
Proof.
  unfold drawAxisLines. destruct (showAxisLines (viewer p)); [|done].
  unfold paint.
  destruct (on_drawBuffers_frame (fun t => t ++ [AxesLines])
    (call (AxesLineHelper_draw (axesMatrix (sliceView p)))
       (drawBuffersWEBGL [COLOR_ATTACHMENT0_WEBGL] p)))
    as (_ & -> & _ & _ & -> & _ & _ & ->).
  by destruct p.
Qed.

Lemma drawToScreen_gl (w : num) (sv : SliceView num Orientation) (p : Panel) :
  sliceView (drawToScreen w sv p) = sliceView p
  /\ mouseX (drawToScreen w sv p) = mouseX p /\ mouseY (drawToScreen w sv p) = mouseY p
  /\ gl (drawToScreen w sv p) = {| offscreenBound := false; drawBuffers := drawBuffers (gl p) |}.
Proof. by destruct p. Qed.

(** What [draw] leaves of the panel besides the textures: the slice view is
    as it was, the target is no longer bound and is allocated for the
    viewport's size, and the draw buffers are the color attachment alone
    when the axis lines were drawn. *)
Lemma draw_frame (p : Panel) :
  hasValidViewport (sliceView p) = true ->
  sliceView (draw p) = sliceView p
  /\ fb_size (offscreenFramebuffer (draw p)) =
     fb_size (resized (offscreenFramebuffer p) (width (sliceView p)) (height (sliceView p)))
  /\ gl (draw p) =
     {| offscreenBound := false;
        drawBuffers := if showAxisLines (viewer p) then [COLOR_ATTACHMENT0_WEBGL]
                       else [COLOR; PICK] |}.
Proof.
  intros Hvalid. unfold draw. rewrite Hvalid. cbn [negb]. cbv zeta.
  destruct (drawBackground_frame p) as (Hgl & Hpk & Hv & Hs & Hvl & Hsize).
  rewrite Hvl, Hpk.
  set (q := set_pickIDs (pickIDs_clear (pickIDs p)) (call PickIDManager_clear (drawBackground p))).
  assert (Hq : gl q = {| offscreenBound := true; drawBuffers := [0; 1] |}
               /\ viewer q = viewer p /\ sliceView q = sliceView p
               /\ fb_size (offscreenFramebuffer q) =
                  fb_size (offscreenFramebuffer (drawBackground p))).
  { subst q. rewrite <- Hv, <- Hgl, <- Hs. by destruct (drawBackground p). }
  destruct Hq as (Hqg & Hqv & Hqs & Hqsize).
  set (d := dataToDevice (sliceView p)). set (ls := visibleLayers p).
  destruct (drawLayers_frame d ls q) as (Hlg & Hlv & Hls & _).
  destruct (drawAxisLines_frame (fold_left (drawLayer d) ls q)) as (Has & Hasize & Hag).
  destruct (drawToScreen_gl (width (sliceView p)) (sliceView p)
              (drawAxisLines (fold_left (drawLayer d) ls q))) as (-> & _ & _ & ->).
  destruct (drawToScreen_frame (width (sliceView p)) (sliceView p)
              (drawAxisLines (fold_left (drawLayer d) ls q))) as (_ & -> & _).
  rewrite Has, Hls, Hqs, Hasize, drawLayers_fb_size, Hqsize, Hsize, Hag, Hlv, Hqv, Hlg, Hqg.
  done.
Qed.

(** Once a frame has been drawn, the stale-buffer guard of [updateMouseState]
    lets the read-back through: it returns true, as long as the viewport's
    width and height are numbers equal to themselves; on a panel that has not
    drawn yet it returns false. *)
Theorem updateMouseState_after_draw (p : Panel) (mouseState : MouseSelectionState num) :
  let sv := sliceView p in
  hasValidViewport sv = true ->
  strict_eq (width sv) (width sv) = true -> strict_eq (height sv) (height sv) = true ->
  fst (updateMouseState (draw p) mouseState) = true
  /\ (fb_size (offscreenFramebuffer p) = None -> fst (updateMouseState p mouseState) = false).
Proof.
  intros sv Hvalid Hw Hh. subst sv. split.
  - destruct (draw_frame p Hvalid) as (Hsv & Hsize & _).
    unfold updateMouseState. rewrite Hsv, Hvalid. cbn [negb].
    assert (Hhas : hasSize (offscreenFramebuffer (draw p)) (width (sliceView p))
                     (height (sliceView p)) = true).
    { unfold hasSize. rewrite Hsize. by apply hasSize_resized. }
    by rewrite Hhas.
  - intros Hnone. unfold updateMouseState. rewrite Hvalid. cbn [negb].
    unfold hasSize. by rewrite Hnone.
Qed.

(** [draw] never leaves the offscreen target bound, and a frame that drew the
    axis lines leaves the color attachment as the only draw buffer. *)
Theorem draw_leaves_target_unbound (p : Panel) :
  hasValidViewport (sliceView p) = true ->
  offscreenBound (gl (draw p)) = false
  /\ drawBuffers (gl (draw p)) =
     (if showAxisLines (viewer p) then [COLOR_ATTACHMENT0_WEBGL] else [COLOR; PICK]).
Proof. intros Hvalid. destruct (draw_frame p Hvalid) as (_ & _ & ->). done. Qed.

(** A frame starts from a cleared target: after [draw] the pick texture holds
    the background and this frame's layers, in drawing order, and the color
    texture holds the same followed by the axis lines when they are shown,
    whatever was painted before; on a target that had to be allocated both
    textures are there. *)
Theorem draw_repaints_target (p : Panel) :
  hasValidViewport (sliceView p) = true ->
  let layers := Background :: map LayerContent (visibleLayers p) in
  (forall t, texOpt (draw p) PICK = Some t -> t = layers)
  /\ (forall t, texOpt (draw p) COLOR = Some t ->
        t = layers ++ (if showAxisLines (viewer p) then [AxesLines] else []))
  /\ (hasSize (offscreenFramebuffer p) (width (sliceView p)) (height (sliceView p)) = false ->
      is_Some (texOpt (draw p) PICK) /\ is_Some (texOpt (draw p) COLOR)).
Proof.
  intros Hvalid layers. subst layers.
  assert (Hpick : bool_decide (PICK ∈ [COLOR; PICK]) = true).
  { apply bool_decide_eq_true_2, elem_of_cons. right. apply list_elem_of_here. }
  assert (Hcolor : bool_decide (COLOR ∈ [COLOR; PICK]) = true).
  { apply bool_decide_eq_true_2, list_elem_of_here. }
  split; [|split].
  - intros t. rewrite draw_textures by done. cbv zeta. rewrite Hpick.
    rewrite (bool_decide_eq_false_2 (PICK = COLOR_ATTACHMENT0_WEBGL)) by done.
    rewrite andb_false_r, app_nil_r.
    destruct (dataTextures _ !! PICK); cbn; congruence.
  - intros t. rewrite draw_textures by done. cbv zeta. rewrite Hcolor.
    rewrite (bool_decide_eq_true_2 (COLOR = COLOR_ATTACHMENT0_WEBGL)) by done.
    rewrite andb_true_r.
    destruct (dataTextures _ !! COLOR); cbn; congruence.
  - intros Hno. rewrite !draw_textures by done. cbv zeta. rewrite Hpick, Hcolor.
    unfold resized. rewrite Hno. cbn. eauto.
Qed.

(** ** The tracker's handlers in any order *)

Lemma layerAdded_signal (l : SliceViewPanelRenderLayer) (p : Panel) :
  let q := layerAdded l p in
  redrawNeededOf l q = signal_add (redrawBinding p) (redrawNeededOf l p)
  /\ (forall l', l' ≠ l -> redrawNeededOf l' q = redrawNeededOf l' p)
  /\ calls q = calls p ++ [scheduleRedraw] /\ this q = this p.
Proof.
  intros q. subst q. unfold layerAdded. cbv zeta.
  split; [|split; [|by destruct p]].
  - transitivity (redrawNeededOf l
      (set_redrawNeeded (<[l := signal_add (redrawBinding p) (redrawNeededOf l p)]>
                           (redrawNeeded p)) p)).
    { by destruct p. }
    by rewrite redrawNeededOf_insert, bool_decide_eq_true_2.
  - intros l' Hne.
    transitivity (redrawNeededOf l'
      (set_redrawNeeded (<[l := signal_add (redrawBinding p) (redrawNeededOf l p)]>
                           (redrawNeeded p)) p)).
    { by destruct p. }
    by rewrite redrawNeededOf_insert, bool_decide_eq_false_2.
Qed.

(** Whatever the order of attach and detach notifications, also a layer
    attached twice or detached while not attached, the panel never holds more
    than one subscription on a layer, it schedules one redraw per
    notification, and it leaves the subscriptions of every other listener as
    they are. *)
Theorem tracker_never_subscribes_twice (evs : list TrackerEvent) (p : Panel) :
  (forall l, subscriptions (redrawBinding p) (redrawNeededOf l p) <= 1) ->
  let q := trackerRun evs p in
  (forall l, subscriptions (redrawBinding q) (redrawNeededOf l q) <= 1)
  /\ redrawsScheduled (calls q) = redrawsScheduled (calls p) + length evs
  /\ (forall l b, b ≠ redrawBinding p ->
        subscriptions b (redrawNeededOf l q) = subscriptions b (redrawNeededOf l p)).
Proof.
  intros Hle q. subst q. revert p Hle.
  induction evs as [|ev evs IH]; intros p Hle.
  { cbn. split; [done|]. split; [lia|done]. }
  unfold trackerRun. cbn [fold_left]. fold (trackerRun evs (trackerStep p ev)).
  assert (Hstep : redrawBinding (trackerStep p ev) = redrawBinding p
                  /\ calls (trackerStep p ev) = calls p ++ [scheduleRedraw]
                  /\ (forall l, subscriptions (redrawBinding p)
                                  (redrawNeededOf l (trackerStep p ev)) <= 1)
                  /\ (forall l b, b ≠ redrawBinding p ->
                        subscriptions b (redrawNeededOf l (trackerStep p ev)) =
                        subscriptions b (redrawNeededOf l p))).
  { destruct ev as [l|l]; cbn [trackerStep].
    - set (p1 := set_visibleLayers (visibleLayers p ++ [l]) p).
      assert (H1 : redrawBinding p1 = redrawBinding p /\ calls p1 = calls p
                   /\ forall l', redrawNeededOf l' p1 = redrawNeededOf l' p) by by destruct p.
      destruct H1 as (Hb & Hc & Hrn).
      destruct (layerAdded_signal l p1) as (Hl & Hother & Hcalls & Hthis).
      split; [by unfold redrawBinding; rewrite Hthis|]. split; [by rewrite Hcalls, Hc|].
      split.
      + intros l'. destruct (decide (l' = l)) as [->|Hne].
        * rewrite Hl, Hb, Hrn. by rewrite signal_add_subscriptions.
        * by rewrite Hother, Hrn.
      + intros l' b Hb'. destruct (decide (l' = l)) as [->|Hne].
        * rewrite Hl, Hb, Hrn. by apply signal_add_other.
        * by rewrite Hother, Hrn.
    - set (p1 := set_visibleLayers (filter (fun l' => l' ≠ l) (visibleLayers p)) p).
      assert (H1 : redrawBinding p1 = redrawBinding p /\ calls p1 = calls p
                   /\ forall l', redrawNeededOf l' p1 = redrawNeededOf l' p) by by destruct p.
      destruct H1 as (Hb & Hc & Hrn).
      destruct (layerRemoved_unsubscribes l p1) as (Hl & Hother & Hcalls & Hthis & _).
      split; [by unfold redrawBinding; rewrite Hthis|]. split; [by rewrite Hcalls, Hc|].
      split.
      + intros l'. destruct (decide (l' = l)) as [->|Hne].
        * rewrite Hl, Hb, Hrn, signal_remove_subscriptions. specialize (Hle l). lia.
        * by rewrite Hother, Hrn.
      + intros l' b Hb'. destruct (decide (l' = l)) as [->|Hne].
        * rewrite Hl, Hb, Hrn. by apply signal_remove_other.
        * by rewrite Hother, Hrn. }
  destruct Hstep as (Hb & Hcalls & Hle' & Hothers).
  rewrite <- Hb in Hle'. destruct (IH _ Hle') as (IH1 & IH2 & IH3).
  split; [done|]. split.
  - rewrite IH2, Hcalls, redrawsScheduled_app. cbn. lia.
  - intros l b Hne. rewrite IH3 by by rewrite Hb. by apply Hothers.
Qed.

(** Attaching a layer the panel is not subscribed to and detaching it again
    leaves the layer's signal, and every other layer's, exactly as it was,
    and has scheduled two redraws. *)
Theorem attach_detach_restores_signal (l : SliceViewPanelRenderLayer) (p : Panel) :
  subscriptions (redrawBinding p) (redrawNeededOf l p) = 0 ->
  let q := layerRemoved l (layerAdded l p) in
  (forall l', redrawNeededOf l' q = redrawNeededOf l' p)
  /\ calls q = calls p ++ [scheduleRedraw; scheduleRedraw].
Proof.
  intros Hfresh q. subst q.
  destruct (layerAdded_subscribes l p Hfresh) as (Hl & Hother & Hcalls & Hthis & _).
  destruct (layerRemoved_unsubscribes l (layerAdded l p)) as (Hl' & Hother' & Hcalls' & _).
  split.
  - intros l'. destruct (decide (l' = l)) as [->|Hne].
    + rewrite Hl', Hl. unfold redrawBinding at 1. rewrite Hthis.
      fold (redrawBinding p). cbn [signal_remove]. by rewrite bool_decide_eq_true_2.
    + by rewrite Hother', Hother.
  - by rewrite Hcalls', Hcalls, <- app_assoc.
Qed.

End MoreFacts.

(** ** Zoom and pan over the rationals *)

Section RationalFacts.
Context {C : Collaborators Q}.
Abbreviation QPanel := (SliceViewPanel Q Orientation PickIDManager).
Open Scope Q_scope.

(** The navigation state [zoomByMouse] leaves. *)
Lemma zoomByMouse_navigationState (factor : Q) (p : QPanel) :
  valid (sliceView_navigationState (sliceView p)) = true ->
  let sv := sliceView p in
  let nav := sliceView_navigationState sv in
  let zoomed := navigationState_zoomBy factor nav in
  let k := zoomFactor nav - zoomFactor zoomed in
  sliceView_navigationState (sliceView (zoomByMouse factor p)) =
  set_spatialCoordinates
    (vec3_scaleAndAdd
       (vec3_scaleAndAdd (spatialCoordinates zoomed) (viewportAxis sv 0)
          ((mouseX p - width sv / 2) * k))
       (viewportAxis sv 1) ((mouseY p - height sv / 2) * k))
    zoomed
  /\ sliceView (zoomByMouse factor p) =
     set_sliceView_navigationState
       (sliceView_navigationState (sliceView (zoomByMouse factor p))) sv.
Proof.
  intros Hvalid sv nav zoomed k. subst sv nav zoomed k. unfold zoomByMouse.
  rewrite Hvalid. by destruct p.
Qed.

(** With the mouse at the centre of the viewport, zooming does not move the
    position. *)
Theorem zoomByMouse_at_centre (factor : Q) (p : QPanel) :
  let sv := sliceView p in
  let nav := sliceView_navigationState sv in
  valid nav = true ->
  mouseX p == width sv / 2 -> mouseY p == height sv / 2 ->
  let old := spatialCoordinates (navigationState_zoomBy factor nav) in
  let new := spatialCoordinates (sliceView_navigationState (sliceView (zoomByMouse factor p))) in
  vx new == vx old /\ vy new == vy old /\ vz new == vz old.
Proof.
  intros sv nav Hvalid Hx Hy old new. subst old new.
  destruct (zoomByMouse_navigationState factor p Hvalid) as [-> _].
  fold sv nav. cbn. rewrite Hx, Hy. repeat split; ring.
Qed.

(** For an affine [viewportToData] a pan step leaves the position at the
    matrix's translation plus its linear part applied to [(deltaX, deltaY)];
    when the translation is the old position, as it is while the slice view
    follows the navigation state, this is the old position moved by the
    transformed delta. *)
Theorem dragHandler_pan_affine (initialPosition : vec3 Q) (event : MouseEvent)
    (deltaX deltaY : Q) (p : QPanel) :
  shiftKey event = false ->
  let m := viewportToData (sliceView p) in
  affine m ->
  let new := spatialCoordinates
               (viewer_navigationState
                  (viewer (dragHandler initialPosition event deltaX deltaY p))) in
  vx new == mat4_at m 12 + (mat4_at m 0 * deltaX + mat4_at m 4 * deltaY)
  /\ vy new == mat4_at m 13 + (mat4_at m 1 * deltaX + mat4_at m 5 * deltaY)
  /\ vz new == mat4_at m 14 + (mat4_at m 2 * deltaX + mat4_at m 6 * deltaY).
Proof.
  intros Hshift m (H3 & H7 & H11 & H15) new. subst new.
  unfold dragHandler. rewrite Hshift.
  assert (Hnew : spatialCoordinates (viewer_navigationState (viewer
            (call viewer_position_changed_dispatch
               (set_viewer
                  (set_viewer_navigationState
                     (set_spatialCoordinates
                        (vec3_transformMat4 (vec3_set deltaX deltaY (num_lit 0))
                           (viewportToData (sliceView p)))
                        (viewer_navigationState (viewer p))) (viewer p)) p))))
          = vec3_transformMat4 (Vec3 deltaX deltaY 0) m) by by destruct p.
  cbv zeta. rewrite Hnew. unfold vec3_transformMat4. cbn [vx vy vz].
  set (w := (mat4_at m 3 * deltaX + mat4_at m 7 * deltaY + mat4_at m 11 * 0 + mat4_at m 15)%num).
  assert (Hw : w == 1).
  { subst w. cbn. rewrite H3, H7, H11, H15. ring. }
  assert (Htruthy : truthy w = true).
  { cbn. apply negb_true_iff. destruct (Qeq_bool w 0) eqn:E; [|done].
    apply Qeq_bool_eq in E. rewrite Hw in E. discriminate E. }
  rewrite Htruthy. clearbody w.
  cbn [num_div num_add num_mul num_lit Q_JSNumber]. rewrite Hw. repeat split; field.
Qed.



End RationalFacts.

(** ** The supervoxel layer's shader *)

Section SupervoxelFacts.
Import Supervoxel.
Context {num : Type}.

(** With no shader from the base layer [beginSlice] changes nothing and
    returns none.  Otherwise it returns the base layer's shader and,
    whatever the hash-table manager's [enable] does, the state it hands to
    [enable] has [uIsActive] and [uPerformingMulticut] set to 1 or 0 as the
    flags say, and [uRawSelectedSegment] to the selected segment's two
    halves, or to [(0, 0)] while no segment is selected, whatever the
    selection state still holds. *)
Theorem beginSlice_selection {Shader : Type}
    (hashTableManager_enable : ShaderState num -> ShaderState num)
    (superShader : option Shader) (ds : DisplayState num) (s : ShaderState num) :
  let selection := segmentSelectionState ds in
  match superShader with
  | None => beginSlice hashTableManager_enable superShader ds s = (s, None)
  | Some shader =>
      exists s',
        beginSlice hashTableManager_enable superShader ds s =
          (hashTableManager_enable s', Some shader)
        /\ uniformValues s' !! "uIsActive"%string =
          Some (uniform1ui (if isActive ds then 1 else 0)%N)
        /\ uniformValues s' !! "uPerformingMulticut"%string =
          Some (uniform1ui (if performingMulticut ds then 1 else 0)%N)
        /\ uniformValues s' !! "uRawSelectedSegment"%string =
          Some (if hasSelectedSegment selection
                then uniform2ui (low (rawSelectedSegment selection))
                                (high (rawSelectedSegment selection))
                else uniform2ui 0 0)
  end.
Proof.
  intros selection. subst selection. destruct superShader as [shader|]; [|done].
  unfold beginSlice. destruct (hasSelectedSegment _); (eexists; split; [reflexivity|]);
    unfold setUniform; cbn; by simplify_map_eq.
Qed.

End SupervoxelFacts.

(** ** Concrete checks *)

Open Scope Q_scope.


Lemma draw_order_witness :
  pickIDs (draw (examplePanel (Vec3 0 0 0))) = [(7%nat, 7%N); (9%nat, 9%N)].
Proof.
  rewrite (proj2 (draw_order (C := Spec_Collaborators) (examplePanel (Vec3 0 0 0)) eq_refl)).
  reflexivity.
Defined.

Lemma axis_lines_not_pickable_witness :
  texOpt (draw (examplePanel (Vec3 0 0 0))) PICK =
  texOpt (draw (hideAxisLines (examplePanel (Vec3 0 0 0)))) PICK.
Proof.
  exact (proj1 (axis_lines_not_pickable (C := Spec_Collaborators) (examplePanel (Vec3 0 0 0))
                  eq_refl)).
Defined.

Lemma draw_not_ready_witness : draw notReadyPanel = notReadyPanel.
Proof. exact (proj1 (draw_not_ready (C := Spec_Collaborators) notReadyPanel eq_refl)). Defined.


Lemma draw_sets_scale_bar_witness :
  targetLengthInPixels (scaleBarWidget (draw (examplePanel (Vec3 0 0 0)))) <= 100.
Proof. exact (proj2 draw_sets_scale_bar Spec_Collaborators (examplePanel (Vec3 0 0 0)) eq_refl). Defined.


Lemma emptyPanel_subscribedToAttached : subscribedToAttached emptyPanel.
Proof. intros l. unfold redrawNeededOf. cbn. by rewrite lookup_empty. Qed.



Lemma zoomByMouse_at_centre_witness :
  vx (spatialCoordinates (sliceView_navigationState (sliceView (zoomByMouse 2 centredPanel)))) ==
  vx (spatialCoordinates (spec_zoomBy 2 (sliceView_navigationState (sliceView centredPanel)))).
Proof.
  exact (proj1 (zoomByMouse_at_centre (C := Spec_Collaborators) 2 centredPanel eq_refl
                  eq_refl eq_refl)).
Defined.

Lemma translationMat4_affine (t : vec3 Q) : affine (translationMat4 t).
Proof. by repeat split. Qed.


Lemma dragHandler_pan_affine_witness :
  vx (spatialCoordinates
        (viewer_navigationState
           (viewer (dragHandler (Vec3 0 0 0) plainDrag 1 0 (examplePanel (Vec3 5 0 0)))))) ==
  5 + (1 * 1 + 0 * 0).
Proof.
  exact (proj1 (dragHandler_pan_affine (C := Spec_Collaborators) (Vec3 0 0 0) plainDrag 1 0
                  (examplePanel (Vec3 5 0 0)) eq_refl (translationMat4_affine (Vec3 5 0 0)))).
Defined.

Lemma axesMatrix_entries_witness :
  axesMatrix (exampleSliceView (Vec3 5 0 0)) =
  let k := Qmin 800 600 / 4 * 1.5 * 1 in
  [1 * k; 0 * k; 0 * k; 0 * k;  0 * k; 1 * k; 0 * k; 0 * k;  0 * k; 0 * k; 0 * k; 0 * k;
   0; 0; 0; 1].
Proof.
  exact (axesMatrix_entries (C := Spec_Collaborators) (exampleSliceView (Vec3 5 0 0))
           1 0 0 0 0 1 0 0 0 0 1 0 (- 5) (- 0) (- 0) 1 eq_refl).
Defined.

Lemma updateMouseState_after_draw_witness :
  fst (updateMouseState (draw (examplePanel (Vec3 0 0 0)))
         (mouseState (viewer (examplePanel (Vec3 0 0 0))))) = true.
Proof.
  exact (proj1 (updateMouseState_after_draw (C := Spec_Collaborators)
                  (examplePanel (Vec3 0 0 0)) _ eq_refl eq_refl eq_refl)).
Defined.

Lemma draw_leaves_target_unbound_witness :
  offscreenBound (gl (draw (examplePanel (Vec3 0 0 0)))) = false.
Proof.
  exact (proj1 (draw_leaves_target_unbound (C := Spec_Collaborators)
                  (examplePanel (Vec3 0 0 0)) eq_refl)).
Defined.

Lemma draw_repaints_target_witness :
  texOpt (draw (draw (examplePanel (Vec3 0 0 0)))) PICK =
  Some [Background; LayerContent 7%nat; LayerContent 9%nat].
Proof.
  destruct (texOpt _ PICK) as [t|] eqn:E; [|discriminate E].
  f_equal.
  exact (proj1 (draw_repaints_target (C := Spec_Collaborators)
                  (draw (C := Spec_Collaborators) (examplePanel (Vec3 0 0 0))) eq_refl) t E).
Defined.

Lemma tracker_never_subscribes_twice_witness :
  redrawsScheduled
    (calls (trackerRun [Attach 3%nat; Attach 3%nat; Detach 3%nat; Detach 3%nat] emptyPanel)) =
  (0 + 4)%nat.
Proof.
  refine (proj1 (proj2 (tracker_never_subscribes_twice (C := Spec_Collaborators)
            [Attach 3%nat; Attach 3%nat; Detach 3%nat; Detach 3%nat] emptyPanel _))).
  intros l. rewrite emptyPanel_subscribedToAttached. case_bool_decide; lia.
Defined.

Lemma attach_detach_restores_signal_witness :
  calls (layerRemoved 3%nat (layerAdded 3%nat emptyPanel)) = [scheduleRedraw; scheduleRedraw].
Proof.
  refine (proj2 (attach_detach_restores_signal (C := Spec_Collaborators) 3%nat emptyPanel _)).
  by rewrite emptyPanel_subscribedToAttached.
Defined.

Close Scope Q_scope.
